(** * MCP Firebird SSE clients: session bootstrap and request submission

    A shallow embedding of the three Python SSE clients of the repository

    - [test-mcp-client.py]  (class [MCPClient]),
    - [test-sse.py]         (module-level [send_request] and [main.read_sse]),
    - [examples/legacy/sse_client.py] (class [McpFirebirdSseClient]),

    together with the properties of the session negotiation, of the frame
    handling and of the request path that their specification states.

    Conventions.  A Python [str] is a [string] (code points below 256).
    [None] for an attribute that holds a [str] or [None] is [option string].
    Values produced by [json.loads] / [response.json()] are [pyobj].  The
    standard output is a list of [printed] records, one per [print] call.
    The environment (the HTTP transport, the clock, the random generator,
    the JSON decoder and the registered callbacks) is an explicit input. *)

From Stdlib Require Import ZArith Ascii String DecimalString DecimalZ.
From stdpp Require Import base gmap strings list.

(** ** Python [str] operations used by the clients *)

Module PyStr.

(** [c.isspace()] for a code point below 256. *)
Definition isspace (c : ascii) : bool :=
  let n := nat_of_ascii c in
  (Nat.leb 9 n && Nat.leb n 13) || (Nat.leb 28 n && Nat.leb n 32)
  || Nat.eqb n 133 || Nat.eqb n 160.

Fixpoint lstrip (s : string) : string :=
  match s with
  | EmptyString => EmptyString
  | String c s' => if isspace c then lstrip s' else s
  end.

Fixpoint rstrip (s : string) : string :=
  match s with
  | EmptyString => EmptyString
  | String c s' =>
      match rstrip s' with
      | EmptyString => if isspace c then EmptyString else String c EmptyString
      | r => String c r
      end
  end.

(** [s.strip()] *)
Definition strip (s : string) : string := rstrip (lstrip s).

(** [s.startswith(p)] *)
Definition startswith (s p : string) : bool := String.prefix p s.

(** [s[n:]] *)
Fixpoint slice_from (n : nat) (s : string) : string :=
  match n, s with
  | O, _ => s
  | S _, EmptyString => EmptyString
  | S n', String _ s' => slice_from n' s'
  end.

(** [sub in s] *)
Fixpoint contains (sub s : string) : bool :=
  String.prefix sub s
  || match s with
     | EmptyString => false
     | String _ s' => contains sub s'
     end.

(** [s.split(sep)] for a non-empty [sep] (Python raises [ValueError] on
    an empty separator; the clients only split on a constant).  The
    scan goes left to right; [skip] counts the characters of a matched
    separator that are still to be passed over, [cur] is the piece
    being collected. *)
Fixpoint split_go (sep : string) (skip : nat) (cur s : string) : list string :=
  match s with
  | EmptyString => [cur]
  | String c s' =>
      match skip with
      | S k => split_go sep k cur s'
      | O =>
          if String.prefix sep s
          then cur :: split_go sep (String.length sep - 1) "" s'
          else split_go sep 0 (cur +:+ String c "") s'
      end
  end.

Definition split (sep s : string) : list string := split_go sep 0 "" s.

(** [str(n)] for an [int]. *)
Definition str (n : Z) : string := NilZero.string_of_int (Z.to_int n).

(** Truthiness of a [str]: the empty string is falsy. *)
Definition truthy (s : string) : bool :=
  match s with EmptyString => false | _ => true end.

(** Truthiness of an attribute holding [None] or a [str]. *)
Definition truthy_opt (o : option string) : bool :=
  match o with None => false | Some s => truthy s end.

End PyStr.

(** ** Values and the HTTP boundary shared by the three clients *)

(** Python objects as [json.loads] builds them ([null] is [None]). *)
#[local] Unset Elimination Schemes.
Inductive pyobj : Type :=
| PyNone
| PyBool (b : bool)
| PyInt (n : Z)
| PyFloat (repr : string)
| PyStr (s : string)
| PyList (xs : list pyobj)
| PyDict (items : list (string * pyobj)).
#[local] Set Elimination Schemes.

(** A [requests.Response]: only [status_code] and [text] are read. *)
Record response : Type := { status_code : Z; text : string }.

(** Exceptions: [json.JSONDecodeError] keeps the document it failed on;
    every other exception is kept by its message. *)
Inductive exn : Type :=
| Exception (msg : string)
| JSONDecodeError (doc : string).

(** A call that returns a value or raises. *)
Inductive result (A : Type) : Type :=
| Returns (a : A)
| Raises (e : exn).
Arguments Returns {A} a.
Arguments Raises {A} e.

(** Outcome of one [requests.post] / [requests.get] call. *)
Inductive http_result : Type :=
| HttpRaises (e : exn)
| HttpReturns (r : response).

(** The behaviour of [requests.post] at one call, by url and JSON body. *)
Definition poster : Type := string -> pyobj -> http_result.

(** The JSON-RPC request dictionary built by every client. *)
Definition make_request (id method : string) (params : pyobj) : pyobj :=
  PyDict [("jsonrpc", PyStr "2.0"); ("id", PyStr id);
          ("method", PyStr method); ("params", params)].

(** [params = {}] when the caller passed [None]. *)
Definition params_or_empty (params : option pyobj) : pyobj :=
  match params with None => PyDict [] | Some p => p end.

(** A [threading.Event]: [wait] on a set event returns [True] at once;
    on a clear event it blocks until the event is set or the timeout
    elapses. *)
Inductive wait_outcome : Type :=
| WaitReturns (b : bool)
| WaitBlocks (timeout : Z).

Definition event_wait (flag : bool) (timeout : Z) : wait_outcome :=
  if flag then WaitReturns true else WaitBlocks timeout.

(** The separator both test clients look for in the endpoint data. *)
Definition session_sep : string := "?sessionId=".

(** [event_data.split('?sessionId=')[1]]; the index is in range whenever
    the separator occurs in the data (lemma [split_second_in_range]),
    which the callers test first. *)
Definition session_of (event_data : string) : string :=
  match PyStr.split session_sep event_data !! 1%nat with
  | Some sid => sid
  | None => ""
  end.

(** ** test-mcp-client.py *)

Module TestMcpClient.

(** One constructor per [print] call of the script. *)
Inductive printed : Type :=
| P_conectando (url : string)
| P_error_conectar_status (status : Z)
| P_sse_establecida
| P_esperando_endpoint
| P_timeout_endpoint
| P_error_conectar (e : exn)
| P_sse_line (line : string)
| P_id_sesion (sid : string)
| P_evento_json (ev : string) (data : pyobj)
| P_evento_raw (ev : string) (data : string)
| P_datos_json (data : pyobj)
| P_datos_raw (data : string)
| P_no_conexion
| P_enviando (request : pyobj)
| P_url (url : string)
| P_codigo (status : Z)
| P_error_respuesta (body : string)
| P_error_json (body : string)
| P_error_envio (e : exn)
| P_cerrada.

(** The streaming GET response held in [self.sse_response]. *)
Record sse_handle : Type := { sse_status : Z; sse_closed : bool }.

(** The [MCPClient] object, the [threading.Event] created by [connect],
    the console and the log of POSTs sent. *)
Record world : Type := {
  server_url : string;
  session_id : option string;
  message_endpoint : option string;
  connected : bool;
  sse_response : option sse_handle;
  endpoint_received : bool;
  stdout : list printed;
  posts : list (string * pyobj)
}.

(** The two local variables of the closure [process_sse]. *)
Record locals : Type := { current_event : option string; event_data : string }.

(** [MCPClient.__init__] *)
Definition __init__ (url : string) : world :=
  {| server_url := url; session_id := None; message_endpoint := None;
     connected := false; sse_response := None; endpoint_received := false;
     stdout := []; posts := [] |}.

Definition locals0 : locals := {| current_event := None; event_data := "" |}.

Definition print (p : printed) (w : world) : world :=
  {| server_url := server_url w; session_id := session_id w;
     message_endpoint := message_endpoint w; connected := connected w;
     sse_response := sse_response w; endpoint_received := endpoint_received w;
     stdout := stdout w ++ [p]; posts := posts w |}.

Definition set_message_endpoint (v : option string) (w : world) : world :=
  {| server_url := server_url w; session_id := session_id w;
     message_endpoint := v; connected := connected w;
     sse_response := sse_response w; endpoint_received := endpoint_received w;
     stdout := stdout w; posts := posts w |}.

Definition set_session_id (v : option string) (w : world) : world :=
  {| server_url := server_url w; session_id := v;
     message_endpoint := message_endpoint w; connected := connected w;
     sse_response := sse_response w; endpoint_received := endpoint_received w;
     stdout := stdout w; posts := posts w |}.

Definition set_connected (v : bool) (w : world) : world :=
  {| server_url := server_url w; session_id := session_id w;
     message_endpoint := message_endpoint w; connected := v;
     sse_response := sse_response w; endpoint_received := endpoint_received w;
     stdout := stdout w; posts := posts w |}.

Definition set_sse_response (v : option sse_handle) (w : world) : world :=
  {| server_url := server_url w; session_id := session_id w;
     message_endpoint := message_endpoint w; connected := connected w;
     sse_response := v; endpoint_received := endpoint_received w;
     stdout := stdout w; posts := posts w |}.

Definition set_endpoint_received (v : bool) (w : world) : world :=
  {| server_url := server_url w; session_id := session_id w;
     message_endpoint := message_endpoint w; connected := connected w;
     sse_response := sse_response w; endpoint_received := v;
     stdout := stdout w; posts := posts w |}.

Definition log_post (url : string) (body : pyobj) (w : world) : world :=
  {| server_url := server_url w; session_id := session_id w;
     message_endpoint := message_endpoint w; connected := connected w;
     sse_response := sse_response w; endpoint_received := endpoint_received w;
     stdout := stdout w; posts := posts w ++ [(url, body)] |}.

Section WithJson.

(** [json.loads]: [None] stands for [JSONDecodeError]. *)
Variable json_loads : string -> option pyobj.

(** The body of the [for line in self.sse_response.iter_lines()] loop
    of [process_sse], on one line (already decodable text). *)
Definition process_line (line : string) (st : locals * world) : locals * world :=
  let '(l, w) := st in
  if negb (PyStr.truthy line) then (l, w)
  else
    let w := print (P_sse_line line) w in
    if PyStr.startswith line "event:" then
      ({| current_event := Some (PyStr.strip (PyStr.slice_from 6 line));
          event_data := event_data l |}, w)
    else if PyStr.startswith line "data:" then
      let data := PyStr.strip (PyStr.slice_from 5 line) in
      match current_event l with
      | Some ev =>
          if String.eqb ev "endpoint" then
            let w := set_message_endpoint (Some data) w in
            let w :=
              if PyStr.contains session_sep data then
                let sid := session_of data in
                let w := set_session_id (Some sid) w in
                let w := print (P_id_sesion sid) w in
                let w := set_connected true w in
                set_endpoint_received true w
              else w in
            ({| current_event := None; event_data := data |}, w)
          else if PyStr.truthy ev then
            let w :=
              match json_loads data with
              | Some v => print (P_evento_json ev v) w
              | None => print (P_evento_raw ev data) w
              end in
            ({| current_event := None; event_data := data |}, w)
          else
            let w :=
              match json_loads data with
              | Some v => print (P_datos_json v) w
              | None => if PyStr.truthy data then print (P_datos_raw data) w else w
              end in
            ({| current_event := current_event l; event_data := data |}, w)
      | None =>
          let w :=
            match json_loads data with
            | Some v => print (P_datos_json v) w
            | None => if PyStr.truthy data then print (P_datos_raw data) w else w
            end in
          ({| current_event := None; event_data := data |}, w)
      end
    else (l, w).

(** The loop of [process_sse] over the lines the reader handles.  A line
    that is not valid UTF-8 raises in [decode] before anything is done
    with it and ends the thread: the lines handled are then those
    before it. *)
Definition process_lines (lines : list string) (st : locals * world) : locals * world :=
  fold_left (fun st line => process_line line st) lines st.

(** [process_sse]: fresh locals, then the loop. *)
Definition process_sse (lines : list string) (w : world) : world :=
  snd (process_lines lines (locals0, w)).

(** [MCPClient.connect].  [get] is the outcome of the streaming GET;
    [lines] are the lines the reader thread it starts has handled when
    [endpoint_received.wait(timeout=5)] returns.  The reader thread goes
    on afterwards, from the locals returned here. *)
Definition connect (get : http_result) (lines : list string) (w : world)
    : bool * (locals * world) :=
  let w := print (P_conectando (server_url w)) w in
  match get with
  | HttpRaises e => (false, (locals0, print (P_error_conectar e) w))
  | HttpReturns r =>
      let w := set_sse_response
                 (Some {| sse_status := status_code r; sse_closed := false |}) w in
      if negb (Z.eqb (status_code r) 200) then
        (false, (locals0, print (P_error_conectar_status (status_code r)) w))
      else
        let w := print P_sse_establecida w in
        let w := set_endpoint_received false w in
        let w := print P_esperando_endpoint w in
        let '(l, w) := process_lines lines (locals0, w) in
        if endpoint_received w then (true, (l, w))
        else (false, (l, print P_timeout_endpoint w))
  end.

(** [MCPClient.send_request].  [now] is [int(time.time())] and [post]
    the behaviour of [requests.post] at this call.  [response.json()] is
    [json_loads] of the body; its failure is the [json.JSONDecodeError]
    that the inner [except] catches (as [requests] raises it when it
    decodes with the standard [json] module). *)
Definition send_request (now : Z) (post : poster) (method : string)
    (params : option pyobj) (w : world) : pyobj * world :=
  match connected w, message_endpoint w, session_id w with
  | true, Some ep, Some sid =>
      if PyStr.truthy ep && PyStr.truthy sid then
        let params := params_or_empty params in
        let request := make_request (PyStr.str now) method params in
        let w := print (P_enviando request) w in
        let url := server_url w +:+ ep in
        let url := if negb (PyStr.startswith url "http")
                   then server_url w +:+ ep else url in
        let w := print (P_url url) w in
        let w := log_post url request w in
        match post url request with
        | HttpRaises e => (PyNone, print (P_error_envio e) w)
        | HttpReturns r =>
            let w := print (P_codigo (status_code r)) w in
            if negb (Z.eqb (status_code r) 200) then
              (PyNone, print (P_error_respuesta (text r)) w)
            else
              match json_loads (text r) with
              | Some v => (v, w)
              | None => (PyNone, print (P_error_json (text r)) w)
              end
        end
      else (PyNone, print P_no_conexion w)
  | _, _, _ => (PyNone, print P_no_conexion w)
  end.

End WithJson.

(** Truthiness of a [requests.Response]: its [ok], which is false for
    the statuses from 400 to 599. *)
Definition response_ok (status : Z) : bool :=
  negb (Z.leb 400 status && Z.ltb status 600).

(** [MCPClient.close] *)
Definition close (w : world) : world :=
  let w :=
    match sse_response w with
    | Some h =>
        if response_ok (sse_status h)
        then set_sse_response (Some {| sse_status := sse_status h; sse_closed := true |}) w
        else w
    | None => w
    end in
  print P_cerrada (set_connected false w).

End TestMcpClient.


(** ** test-sse.py *)

Module TestSse.

Definition SERVER_URL : string := "http://localhost:3003".

(** One constructor per [print] call of [send_request] and [read_sse]. *)
Inductive printed : Type :=
| P_no_session
| P_enviando (request : pyobj)
| P_codigo (status : Z)
| P_error_respuesta (body : string)
| P_error_json (body : string)
| P_error_envio (e : exn)
| P_recibido (line : string)
| P_evento (ev : string)
| P_datos (data : string)
| P_endpoint_recibido (data : string)
| P_nuevo_id (sid : string).

(** The module global [SESSION_ID], the [threading.Event] of [main], the
    console and the log of POSTs sent. *)
Record world : Type := {
  SESSION_ID : option string;
  endpoint_event_received : bool;
  stdout : list printed;
  posts : list (string * pyobj)
}.

(** The two local variables of the closure [read_sse]. *)
Record locals : Type := { current_event : option string; event_data : string }.

Definition world0 : world :=
  {| SESSION_ID := None; endpoint_event_received := false; stdout := []; posts := [] |}.

Definition locals0 : locals := {| current_event := None; event_data := "" |}.

Definition print (p : printed) (w : world) : world :=
  {| SESSION_ID := SESSION_ID w; endpoint_event_received := endpoint_event_received w;
     stdout := stdout w ++ [p]; posts := posts w |}.

Definition set_SESSION_ID (v : option string) (w : world) : world :=
  {| SESSION_ID := v; endpoint_event_received := endpoint_event_received w;
     stdout := stdout w; posts := posts w |}.

Definition set_endpoint_event_received (v : bool) (w : world) : world :=
  {| SESSION_ID := SESSION_ID w; endpoint_event_received := v;
     stdout := stdout w; posts := posts w |}.

Definition log_post (url : string) (body : pyobj) (w : world) : world :=
  {| SESSION_ID := SESSION_ID w; endpoint_event_received := endpoint_event_received w;
     stdout := stdout w; posts := posts w ++ [(url, body)] |}.

(** The body of the [for line in sse_response.iter_lines()] loop of
    [read_sse], on one line. *)
Definition read_line (line : string) (st : locals * world) : locals * world :=
  let '(l, w) := st in
  if PyStr.truthy line then
    let w := print (P_recibido line) w in
    if PyStr.startswith line "event:" then
      let ev := PyStr.strip (PyStr.slice_from 6 line) in
      ({| current_event := Some ev; event_data := event_data l |}, print (P_evento ev) w)
    else if PyStr.startswith line "data:" then
      let data := PyStr.strip (PyStr.slice_from 5 line) in
      let w := print (P_datos data) w in
      match current_event l with
      | Some ev =>
          if String.eqb ev "endpoint" then
            let w := print (P_endpoint_recibido data) w in
            let w :=
              if PyStr.contains session_sep data then
                let w := set_SESSION_ID (Some (session_of data)) w in
                let w := print (P_nuevo_id (session_of data)) w in
                set_endpoint_event_received true w
              else w in
            ({| current_event := None; event_data := data |}, w)
          else ({| current_event := Some ev; event_data := data |}, w)
      | None => ({| current_event := None; event_data := data |}, w)
      end
    else (l, w)
  else (l, w).

(** The loop of [read_sse] over the lines the reader handles (up to the
    first line that is not valid UTF-8, if any: [decode] raises there). *)
Definition read_lines (lines : list string) (st : locals * world) : locals * world :=
  fold_left (fun st line => read_line line st) lines st.

(** [read_sse]: fresh locals, then the loop. *)
Definition read_sse (lines : list string) (w : world) : world :=
  snd (read_lines lines (locals0, w)).

Section WithJson.

Variable json_loads : string -> option pyobj.

(** Module-level [send_request(method, params, session_id)]; [now] is
    [int(time.time())]. *)
Definition send_request (now : Z) (post : poster) (method : string)
    (params : option pyobj) (session_id : option string) (w : world) : pyobj * world :=
  let params := params_or_empty params in
  match session_id with
  | None => (PyNone, print P_no_session w)
  | Some sid =>
      let request := make_request (PyStr.str now) method params in
      let w := print (P_enviando request) w in
      let url := SERVER_URL +:+ "/message?sessionId=" +:+ sid in
      let w := log_post url request w in
      match post url request with
      | HttpRaises e => (PyNone, print (P_error_envio e) w)
      | HttpReturns r =>
          let w := print (P_codigo (status_code r)) w in
          if negb (Z.eqb (status_code r) 200) then
            (PyNone, print (P_error_respuesta (text r)) w)
          else
            match json_loads (text r) with
            | Some v => (v, w)
            | None => (PyNone, print (P_error_json (text r)) w)
            end
      end
  end.

End WithJson.

End TestSse.


(** ** examples/legacy/sse_client.py *)

Module Legacy.

(** [string.ascii_lowercase + string.digits] *)
Definition alphabet : string := "abcdefghijklmnopqrstuvwxyz0123456789".

(** [random.choices(population, k=k)]: [k] draws with replacement; the
    generator is the stream [rng] of drawn numbers, the [i]-th draw picks
    the element of index [rng i mod len(population)]. *)
Definition choices (population : string) (k : nat) (rng : nat -> nat) : list ascii :=
  map (fun i =>
         match String.get (rng i mod String.length population) population with
         | Some c => c
         | None => "000"%char
         end)
      (seq 0 k).

(** [''.join(chars)] *)
Definition join_chars (chars : list ascii) : string := string_of_list_ascii chars.

(** What a callback is called with: [None], a decoded JSON value or the
    raw [str] (all [pyobj]), or an exception object. *)
Inductive cb_arg : Type :=
| ArgObj (v : pyobj)
| ArgExn (e : exn).

(** A registered callback, seen from the client: a name to tell it apart
    in the call log, and whether a call with a given argument returns
    ([None]) or raises. *)
Record callback : Type := {
  cb_name : string;
  cb_body : cb_arg -> option exn
}.

(** An event yielded by [sseclient.SSEClient.events()]. *)
Record sse_event : Type := { ev_event : string; ev_data : string }.

Inductive printed : Type :=
| P_conectando (url : string)
| P_sse_establecida
| P_error_conexion (e : exn)
| P_mensaje (data : pyobj)
| P_mensaje_no_json (data : string)
| P_error_eventos (e : exn)
| P_sse_cerrada
| P_enviando (request : pyobj)
| P_respuesta (data : pyobj).

(** The [McpFirebirdSseClient] object, the log of callback calls, the
    console and the log of POSTs sent. *)
Record world : Type := {
  server_url : string;
  session_id : string;
  request_id : Z;
  connected : bool;
  sse_client : option response;
  event_handlers : gmap string (list callback);
  calls : list (string * cb_arg);
  stdout : list printed;
  posts : list (string * pyobj)
}.

(** [McpFirebirdSseClient.__init__] *)
Definition __init__ (url : string) (rng : nat -> nat) : world :=
  {| server_url := url;
     session_id := "python-client-" +:+ join_chars (choices alphabet 10 rng);
     request_id := 1;
     connected := false;
     sse_client := None;
     event_handlers := <[ "message" := [] ]> (<[ "error" := [] ]> (<[ "open" := [] ]> ∅));
     calls := []; stdout := []; posts := [] |}.

Definition print (p : printed) (w : world) : world :=
  {| server_url := server_url w; session_id := session_id w;
     request_id := request_id w; connected := connected w;
     sse_client := sse_client w; event_handlers := event_handlers w;
     calls := calls w; stdout := stdout w ++ [p]; posts := posts w |}.

Definition set_request_id (v : Z) (w : world) : world :=
  {| server_url := server_url w; session_id := session_id w;
     request_id := v; connected := connected w;
     sse_client := sse_client w; event_handlers := event_handlers w;
     calls := calls w; stdout := stdout w; posts := posts w |}.

Definition set_connected (v : bool) (w : world) : world :=
  {| server_url := server_url w; session_id := session_id w;
     request_id := request_id w; connected := v;
     sse_client := sse_client w; event_handlers := event_handlers w;
     calls := calls w; stdout := stdout w; posts := posts w |}.

Definition set_sse_client (v : option response) (w : world) : world :=
  {| server_url := server_url w; session_id := session_id w;
     request_id := request_id w; connected := connected w;
     sse_client := v; event_handlers := event_handlers w;
     calls := calls w; stdout := stdout w; posts := posts w |}.

Definition set_event_handlers (v : gmap string (list callback)) (w : world) : world :=
  {| server_url := server_url w; session_id := session_id w;
     request_id := request_id w; connected := connected w;
     sse_client := sse_client w; event_handlers := v;
     calls := calls w; stdout := stdout w; posts := posts w |}.

Definition log_call (name : string) (a : cb_arg) (w : world) : world :=
  {| server_url := server_url w; session_id := session_id w;
     request_id := request_id w; connected := connected w;
     sse_client := sse_client w; event_handlers := event_handlers w;
     calls := calls w ++ [(name, a)]; stdout := stdout w; posts := posts w |}.

Definition log_post (url : string) (body : pyobj) (w : world) : world :=
  {| server_url := server_url w; session_id := session_id w;
     request_id := request_id w; connected := connected w;
     sse_client := sse_client w; event_handlers := event_handlers w;
     calls := calls w; stdout := stdout w; posts := posts w ++ [(url, body)] |}.

(** [on(event, callback)] *)
Definition on (event : string) (cb : callback) (w : world) : world :=
  match event_handlers w !! event with
  | Some cbs => set_event_handlers (<[ event := cbs ++ [cb] ]> (event_handlers w)) w
  | None => w
  end.

(** The loop [for callback in ...: callback(data)]: the first callback
    that raises ends it, and its exception propagates. *)
Fixpoint run_callbacks (cbs : list callback) (data : cb_arg) (w : world) : option exn * world :=
  match cbs with
  | [] => (None, w)
  | cb :: rest =>
      let w := log_call (cb_name cb) data w in
      match cb_body cb data with
      | Some e => (Some e, w)
      | None => run_callbacks rest data w
      end
  end.

(** [_trigger_event(event, data)]; [Some e] when a callback raised [e]. *)
Definition _trigger_event (event : string) (data : cb_arg) (w : world) : option exn * world :=
  match event_handlers w !! event with
  | Some cbs => run_callbacks cbs data w
  | None => (None, w)
  end.

(** [connect]; [get] is the outcome of the streaming GET.  The reader
    thread it starts is [_process_events] below. *)
Definition connect (get : http_result) (w : world) : result bool * world :=
  let w := print (P_conectando (server_url w)) w in
  let failed (e : exn) (w : world) : result bool * world :=
    let w := print (P_error_conexion e) w in
    match _trigger_event "error" (ArgExn e) w with
    | (None, w) => (Returns false, w)
    | (Some e', w) => (Raises e', w)
    end in
  match get with
  | HttpRaises e => failed e w
  | HttpReturns r =>
      let w := set_sse_client (Some r) w in
      let w := set_connected true w in
      let w := print P_sse_establecida w in
      match _trigger_event "open" (ArgObj PyNone) w with
      | (None, w) => (Returns true, w)
      | (Some e, w) => failed e w
      end
  end.

(** [disconnect] *)
Definition disconnect (w : world) : world :=
  match sse_client w with
  | Some _ => print P_sse_cerrada (set_connected false (set_sse_client None w))
  | None => w
  end.

Section WithJson.

Variable json_loads : string -> option pyobj.

(** The inner [try: ... except: ...] of [_process_events] on one event;
    [Some e] when the [except] branch itself raised [e]. *)
Definition process_event (ev : sse_event) (w : world) : option exn * world :=
  match json_loads (ev_data ev) with
  | Some data =>
      let w := print (P_mensaje data) w in
      match _trigger_event "message" (ArgObj data) w with
      | (None, w) => (None, w)
      | (Some _, w) =>
          let w := print (P_mensaje_no_json (ev_data ev)) w in
          _trigger_event "message" (ArgObj (PyStr (ev_data ev))) w
      end
  | None =>
      let w := print (P_mensaje_no_json (ev_data ev)) w in
      _trigger_event "message" (ArgObj (PyStr (ev_data ev))) w
  end.

(** The outer [except Exception as e] of [_process_events]; an exception
    raised by an error callback ends the thread. *)
Definition events_failed (e : exn) (w : world) : world :=
  let w := print (P_error_eventos e) w in
  let w := set_connected false w in
  snd (_trigger_event "error" (ArgExn e) w).

(** [_process_events]: [events] are the events the stream yields and
    [fin] tells how the iteration ends, normally or by raising. *)
Fixpoint _process_events (events : list sse_event) (fin : option exn) (w : world) : world :=
  match events with
  | [] =>
      match fin with
      | None => w
      | Some e => events_failed e w
      end
  | ev :: rest =>
      match process_event ev w with
      | (None, w) => _process_events rest fin w
      | (Some e, w) => events_failed e w
      end
  end.

(** [execute_method]; [post] is the behaviour of [requests.post] at this
    call. *)
Definition execute_method (post : poster) (method : string)
    (params : option pyobj) (w : world) : result pyobj * world :=
  if negb (connected w) then (Raises (Exception "No hay conexión SSE activa"), w)
  else
    let params := params_or_empty params in
    let request := make_request (PyStr.str (request_id w)) method params in
    let w := set_request_id (request_id w + 1) w in
    let w := print (P_enviando request) w in
    let url := server_url w +:+ "/message?sessionId=" +:+ session_id w in
    let w := log_post url request w in
    match post url request with
    | HttpRaises e => (Raises e, w)
    | HttpReturns r =>
        match json_loads (text r) with
        | Some data => (Returns data, print (P_respuesta data) w)
        | None => (Raises (JSONDecodeError (text r)), w)
        end
    end.

End WithJson.

End Legacy.


(** ** Vocabulary of the statements *)

(** The guard of [MCPClient.send_request]: the session is ready when
    [connected] is set and both [message_endpoint] and [session_id] are
    truthy. *)
Definition mcp_ready (w : TestMcpClient.world) : bool :=
  TestMcpClient.connected w
  && PyStr.truthy_opt (TestMcpClient.message_endpoint w)
  && PyStr.truthy_opt (TestMcpClient.session_id w).

(** A non-blank line that sets the pending event type. *)
Definition is_event_line (line : string) : bool :=
  PyStr.truthy line && PyStr.startswith line "event:".

(** An event line that announces an endpoint frame. *)
Definition is_endpoint_event_line (line : string) : bool :=
  is_event_line line && String.eqb (PyStr.strip (PyStr.slice_from 6 line)) "endpoint".

(** A line that carries a frame's data. *)
Definition is_data_line (line : string) : bool :=
  PyStr.truthy line && negb (PyStr.startswith line "event:")
  && PyStr.startswith line "data:".

(** The payload both readers take from a data line: [line[5:].strip()]. *)
Definition payload (line : string) : string :=
  PyStr.strip (PyStr.slice_from 5 line).

(** The lines [Datos: ...] that [read_sse] prints, one per frame it handles. *)
Definition datos_printed (out : list TestSse.printed) : list string :=
  omap (fun p => match p with TestSse.P_datos d => Some d | _ => None end) out.

(** The value under the key ["id"] of a posted request. *)
Definition request_id_of (body : pyobj) : option string :=
  match body with
  | PyDict items =>
      match list_find (fun kv => String.eqb (fst kv) "id") items with
      | Some (_, (_, PyStr id)) => Some id
      | _ => None
      end
  | _ => None
  end.

(** The ids of the requests sent, oldest first. *)
Definition posted_ids (posts : list (string * pyobj)) : list string :=
  omap (fun p => request_id_of (snd p)) posts.


(** What a program can do with a [McpFirebirdSseClient] once built; the
    reader thread is the action [DoEvents]. *)
Inductive legacy_action : Type :=
| DoConnect (get : http_result)
| DoEvents (events : list Legacy.sse_event) (fin : option exn)
| DoOn (event : string) (cb : Legacy.callback)
| DoExecute (post : poster) (method : string) (params : option pyobj)
| DoDisconnect.

Definition legacy_step (json_loads : string -> option pyobj)
    (w : Legacy.world) (a : legacy_action) : Legacy.world :=
  match a with
  | DoConnect get => snd (Legacy.connect get w)
  | DoEvents events fin => Legacy._process_events json_loads events fin w
  | DoOn event cb => Legacy.on event cb w
  | DoExecute post method params => snd (Legacy.execute_method json_loads post method params w)
  | DoDisconnect => Legacy.disconnect w
  end.

Definition legacy_run (json_loads : string -> option pyobj)
    (actions : list legacy_action) (w : Legacy.world) : Legacy.world :=
  fold_left (legacy_step json_loads) actions w.

(** What a program can do with an [MCPClient] once built; [McpLines] is
    the reader thread handling further lines of the stream. *)
Inductive mcp_action : Type :=
| McpConnect (get : http_result) (lines : list string)
| McpLines (lines : list string)
| McpSend (now : Z) (post : poster) (method : string) (params : option pyobj)
| McpClose.

Definition mcp_step (json_loads : string -> option pyobj)
    (st : TestMcpClient.locals * TestMcpClient.world) (a : mcp_action)
    : TestMcpClient.locals * TestMcpClient.world :=
  match a with
  | McpConnect get lines => snd (TestMcpClient.connect json_loads get lines (snd st))
  | McpLines lines => TestMcpClient.process_lines json_loads lines st
  | McpSend now post method params =>
      (fst st, snd (TestMcpClient.send_request json_loads now post method params (snd st)))
  | McpClose => (fst st, TestMcpClient.close (snd st))
  end.

Definition mcp_run (json_loads : string -> option pyobj) (actions : list mcp_action)
    (st : TestMcpClient.locals * TestMcpClient.world)
    : TestMcpClient.locals * TestMcpClient.world :=
  fold_left (mcp_step json_loads) actions st.

(** A decoder for closed examples: [json.loads] on the five documents
    [null], [true], [false], [{}] and [[]], written without blanks; it
    rejects every other text.  The examples below only feed it those
    documents and texts that are not JSON at all. *)
Definition json_loads_lit (s : string) : option pyobj :=
  if String.eqb s "null" then Some PyNone
  else if String.eqb s "true" then Some (PyBool true)
  else if String.eqb s "false" then Some (PyBool false)
  else if String.eqb s "{}" then Some (PyDict [])
  else if String.eqb s "[]" then Some (PyList [])
  else None.

(** The event type pending in [process_sse] is ['endpoint']. *)
Definition mcp_awaiting_endpoint (l : TestMcpClient.locals) : bool :=
  match TestMcpClient.current_event l with
  | Some ev => String.eqb ev "endpoint"
  | None => false
  end.

(** The event type pending in [read_sse] is ['endpoint']. *)
Definition sse_awaiting_endpoint (l : TestSse.locals) : bool :=
  match TestSse.current_event l with
  | Some ev => String.eqb ev "endpoint"
  | None => false
  end.

(** While [connected] holds, both session attributes hold a string. *)
Definition mcp_session_present (w : TestMcpClient.world) : Prop :=
  TestMcpClient.connected w = true ->
  is_Some (TestMcpClient.session_id w) /\ is_Some (TestMcpClient.message_endpoint w).

(** The attributes of the legacy client that requests depend on, and
    its connection state. *)
Definition legacy_core (w : Legacy.world)
    : string * string * Z * list (string * pyobj) * gmap string (list Legacy.callback) :=
  (Legacy.server_url w, Legacy.session_id w, Legacy.request_id w, Legacy.posts w,
   Legacy.event_handlers w).

Definition legacy_link (w : Legacy.world) : bool * option response :=
  (Legacy.connected w, Legacy.sse_client w).

(** The url every POST of the legacy client is meant for. *)
Definition legacy_url (w : Legacy.world) : string :=
  Legacy.server_url w +:+ "/message?sessionId=" +:+ Legacy.session_id w.

(** The request ids [str(1)], [str(2)], ..., [str(n)]. *)
Definition counter_ids (n : nat) : list string :=
  (fun i => PyStr.str (1 + Z.of_nat i)) <$> seq 0 n.

(** What holds of a legacy client built by [__init__ url rng] at every later
    moment: its address and session id are those of construction, each
    POST went to the url made from them, the ids sent are the successive
    values of the counter, and it is connected only while it holds an
    [SSEClient]. *)
Definition legacy_inv (url : string) (rng : nat -> nat) (w : Legacy.world) : Prop :=
  Legacy.server_url w = url
  /\ Legacy.session_id w = Legacy.session_id (Legacy.__init__ url rng)
  /\ Forall (fun p => fst p = legacy_url (Legacy.__init__ url rng)) (Legacy.posts w)
  /\ posted_ids (Legacy.posts w) = counter_ids (length (Legacy.posts w))
  /\ Legacy.request_id w = (1 + Z.of_nat (length (Legacy.posts w)))%Z
  /\ (Legacy.connected w = true -> is_Some (Legacy.sse_client w)).

(** What a message callback is given for an event: the decoded data
    when it is valid JSON, else the raw data as a [str]. *)
Definition decoded_data (json_loads : string -> option pyobj) (ev : Legacy.sse_event) : pyobj :=
  match json_loads (Legacy.ev_data ev) with
  | Some v => v
  | None => PyStr (Legacy.ev_data ev)
  end.

(** The vocabulary stays folded under [simpl] and [cbn]. *)
Arguments payload : simpl never.
Arguments session_of : simpl never.
Arguments is_data_line : simpl never.
Arguments is_event_line : simpl never.
Arguments is_endpoint_event_line : simpl never.
Arguments mcp_awaiting_endpoint : simpl never.
Arguments sse_awaiting_endpoint : simpl never.
Arguments mcp_ready : simpl never.
Arguments legacy_core : simpl never.
Arguments legacy_link : simpl never.


(** * Properties *)

(** ** Python strings *)

Example strip_example :
  PyStr.strip "  /msg?sessionId=abc123 " = "/msg?sessionId=abc123".
Proof. reflexivity. Qed.

Example split_example_one :
  PyStr.split "?sessionId=" "/msg?sessionId=abc123" = ["/msg"; "abc123"].
Proof. reflexivity. Qed.

Example split_example_two :
  PyStr.split "?sessionId=" "/a?sessionId=b?sessionId=c" = ["/a"; "b"; "c"].
Proof. reflexivity. Qed.

Example split_example_overlap : PyStr.split "aa" "aaa" = [""; "a"].
Proof. reflexivity. Qed.

Example split_example_empty_id :
  PyStr.split "?sessionId=" "/msg?sessionId=" = ["/msg"; ""].
Proof. reflexivity. Qed.

Example str_example :
  PyStr.str 1730000000 = "1730000000" /\ PyStr.str 0 = "0" /\ PyStr.str (-12) = "-12".
Proof. repeat split; reflexivity. Qed.


Lemma split_go_nonempty sep k cur s : PyStr.split_go sep k cur s <> [].
Proof.
  revert k cur. induction s as [|c s IH]; intros k cur.
  - done.
  - cbn [PyStr.split_go]. destruct k; [|apply IH].
    destruct (String.prefix sep (String c s)); [done|apply IH].
Qed.

Lemma contains_split_go sep cur s :
  sep <> "" -> PyStr.contains sep s = true ->
  (2 <= length (PyStr.split_go sep 0 cur s))%nat.
Proof.
  intros Hsep. revert cur. induction s as [|c s IH]; intros cur H.
  - simpl in H. destruct sep; [congruence|discriminate].
  - cbn [PyStr.contains] in H. cbn [PyStr.split_go].
    destruct (String.prefix sep (String c s)) eqn:Hp.
    + pose proof (split_go_nonempty sep (String.length sep - 1) "" s) as Hne.
      destruct (PyStr.split_go sep (String.length sep - 1) "" s); [congruence|].
      simpl. lia.
    + simpl in H. apply IH, H.
Qed.

Lemma split_second_in_range data :
  PyStr.contains session_sep data = true ->
  is_Some (PyStr.split session_sep data !! 1%nat).
Proof.
  intros H. apply lookup_lt_is_Some.
  apply (contains_split_go session_sep ""); [discriminate|exact H].
Qed.

Lemma split_go_skip sep k cur s :
  PyStr.split_go sep k cur s = PyStr.split_go sep 0 cur (PyStr.slice_from k s).
Proof.
  revert k. induction s as [|c s IH]; intros k.
  - destruct k; reflexivity.
  - destruct k; [reflexivity|]. simpl. apply IH.
Qed.

Lemma str_inj a b : PyStr.str a = PyStr.str b -> a = b.
Proof.
  unfold PyStr.str. intros H.
  apply DecimalZ.to_int_inj.
  assert (Hn : forall z, Z.to_int z <> Decimal.Pos Decimal.Nil /\ Z.to_int z <> Decimal.Neg Decimal.Nil).
  { intros z. destruct z; simpl; split; try discriminate.
    - intros [= E]. revert E. apply (DecimalPos.Unsigned.to_uint_nonnil).
    - intros [= E]. revert E. apply (DecimalPos.Unsigned.to_uint_nonnil). }
  apply (f_equal NilZero.int_of_string) in H.
  rewrite !NilZero.isi in H by apply Hn.
  congruence.
Qed.

Lemma str_app_cons c s t : String c s +:+ t = String c (s +:+ t).
Proof. reflexivity. Qed.

Lemma str_app_nil_l t : "" +:+ t = t.
Proof. reflexivity. Qed.

Lemma str_app_nil_r s : s +:+ "" = s.
Proof. induction s as [|c s IH]; [reflexivity|]. rewrite str_app_cons. f_equal. exact IH. Qed.

Lemma str_app_assoc a b c : (a +:+ b) +:+ c = a +:+ (b +:+ c).
Proof. induction a as [|x a IH]; [reflexivity|]. rewrite !str_app_cons. f_equal. exact IH. Qed.

Lemma str_length_app a b :
  String.length (a +:+ b) = (String.length a + String.length b)%nat.
Proof.
  induction a as [|x a IH]; [reflexivity|].
  rewrite str_app_cons. cbn [String.length]. rewrite IH. reflexivity.
Qed.

Lemma slice_from_length_le n s :
  (String.length (PyStr.slice_from n s) <= String.length s)%nat.
Proof.
  revert s. induction n as [|n IH]; intros s; [simpl; lia|].
  destruct s as [|c s]; simpl; [lia|]. specialize (IH s). lia.
Qed.

Lemma prefix_slice p s :
  String.prefix p s = true -> s = p +:+ PyStr.slice_from (String.length p) s.
Proof.
  revert s. induction p as [|a p IH]; intros s H; [reflexivity|].
  destruct s as [|c s]; [discriminate|]. simpl in H.
  destruct (ascii_dec a c) as [->|]; [|discriminate].
  rewrite str_app_cons. cbn [String.length PyStr.slice_from]. f_equal. apply IH, H.
Qed.

Lemma concat_split_go sep n : sep <> "" -> forall s cur,
  (String.length s <= n)%nat ->
  String.concat sep (PyStr.split_go sep 0 cur s) = cur +:+ s.
Proof.
  intros Hsep. induction n as [|n IH]; intros s cur Hlen.
  - destruct s; [|simpl in Hlen; lia]. simpl. now rewrite str_app_nil_r.
  - destruct s as [|c s]; [simpl; now rewrite str_app_nil_r|].
    cbn [PyStr.split_go].
    destruct (String.prefix sep (String c s)) eqn:Hp.
    + rewrite split_go_skip.
      pose proof (split_go_nonempty sep 0 "" (PyStr.slice_from (String.length sep - 1) s)) as Hne.
      pose proof (IH (PyStr.slice_from (String.length sep - 1) s) "") as Hrec.
      destruct (PyStr.split_go sep 0 "" (PyStr.slice_from (String.length sep - 1) s))
        as [|x xs] eqn:E; [congruence|].
      change (String.concat sep (cur :: x :: xs))
        with (cur +:+ sep +:+ String.concat sep (x :: xs)).
      rewrite Hrec.
      2:{ pose proof (slice_from_length_le (String.length sep - 1) s).
          simpl in Hlen. lia. }
      f_equal. rewrite str_app_nil_l.
      apply prefix_slice in Hp.
      etransitivity; [|symmetry; exact Hp]. f_equal.
      destruct sep as [|a sep']; [congruence|].
      cbn [String.length].
      replace (S (String.length sep') - 1)%nat with (String.length sep') by lia.
      reflexivity.
    + rewrite IH by (simpl in Hlen; lia).
      now rewrite str_app_assoc.
Qed.

(** [sep.join(s.split(sep)) == s] *)
Lemma join_split sep s : sep <> "" -> String.concat sep (PyStr.split sep s) = s.
Proof.
  intros Hsep. unfold PyStr.split.
  now rewrite (concat_split_go sep (String.length s)) by (auto; lia).
Qed.

(** ** test-mcp-client.py: the reader loop *)

Section McpReader.

Import TestMcpClient.

Variable json_loads : string -> option pyobj.

Lemma process_line_blank st : process_line json_loads "" st = st.
Proof. destruct st; reflexivity. Qed.

(** A data line that follows [event: endpoint]: the branch of lines 58-68. *)
Lemma process_line_endpoint_data line l w :
  is_data_line line = true -> mcp_awaiting_endpoint l = true ->
  process_line json_loads line (l, w) =
    let data := payload line in
    let w := set_message_endpoint (Some data) (print (P_sse_line line) w) in
    ({| current_event := None; event_data := data |},
     if PyStr.contains session_sep data
     then set_endpoint_received true
            (set_connected true
               (print (P_id_sesion (session_of data))
                  (set_session_id (Some (session_of data)) w)))
     else w).
Proof.
  unfold is_data_line, mcp_awaiting_endpoint, process_line, payload.
  intros Hd Ha.
  destruct (PyStr.truthy line); [|discriminate].
  destruct (PyStr.startswith line "event:"); [discriminate|].
  destruct (PyStr.startswith line "data:"); [|discriminate].
  cbn [negb]. destruct (current_event l) as [ev|]; [|discriminate].
  rewrite Ha. reflexivity.
Qed.

(** Every other line leaves the session fields and both flags alone. *)
Lemma process_line_other line l w :
  is_data_line line && mcp_awaiting_endpoint l = false ->
  let w' := snd (process_line json_loads line (l, w)) in
  session_id w' = session_id w /\ message_endpoint w' = message_endpoint w
  /\ connected w' = connected w /\ endpoint_received w' = endpoint_received w.
Proof.
  unfold is_data_line, mcp_awaiting_endpoint, process_line.
  intros H.
  destruct (PyStr.truthy line); [|done].
  destruct (PyStr.startswith line "event:"); [done|].
  destruct (PyStr.startswith line "data:"); [|done].
  cbn [negb andb] in *.
  destruct (current_event l) as [ev|].
  - rewrite H. destruct (PyStr.truthy ev); destruct (json_loads _); try done.
    destruct (PyStr.truthy _); done.
  - destruct (json_loads _); try done. destruct (PyStr.truthy _); done.
Qed.

Lemma process_line_connected line st :
  connected (snd st) = true -> connected (snd (process_line json_loads line st)) = true.
Proof.
  destruct st as [l w]. intros H.
  destruct (is_data_line line && mcp_awaiting_endpoint l) eqn:E.
  - apply andb_prop in E as [Hd Ha].
    rewrite (process_line_endpoint_data _ _ _ Hd Ha). cbn.
    destruct (PyStr.contains _ _); done.
  - destruct (process_line_other line l w E) as (_ & _ & -> & _). exact H.
Qed.

Lemma process_line_endpoint_received line st :
  endpoint_received (snd st) = true ->
  endpoint_received (snd (process_line json_loads line st)) = true.
Proof.
  destruct st as [l w]. intros H.
  destruct (is_data_line line && mcp_awaiting_endpoint l) eqn:E.
  - apply andb_prop in E as [Hd Ha].
    rewrite (process_line_endpoint_data _ _ _ Hd Ha). cbn.
    destruct (PyStr.contains _ _); done.
  - destruct (process_line_other line l w E) as (_ & _ & _ & ->). exact H.
Qed.

Lemma process_lines_app xs ys st :
  process_lines json_loads (xs ++ ys) st
  = process_lines json_loads ys (process_lines json_loads xs st).
Proof. apply fold_left_app. Qed.

Lemma process_lines_connected lines st :
  connected (snd st) = true -> connected (snd (process_lines json_loads lines st)) = true.
Proof.
  revert st. induction lines as [|x xs IH]; intros st H; [exact H|].
  apply IH, process_line_connected, H.
Qed.

Lemma process_lines_endpoint_received lines st :
  endpoint_received (snd st) = true ->
  endpoint_received (snd (process_lines json_loads lines st)) = true.
Proof.
  revert st. induction lines as [|x xs IH]; intros st H; [exact H|].
  apply IH, process_line_endpoint_received, H.
Qed.

End McpReader.

(** ** test-sse.py: the reader loop *)

Section SseReader.

Import TestSse.

Lemma read_line_blank st : read_line "" st = st.
Proof. destruct st; reflexivity. Qed.

(** A data line that follows [event: endpoint]: the branch of lines 86-94. *)
Lemma read_line_endpoint_data line l w :
  is_data_line line = true -> sse_awaiting_endpoint l = true ->
  read_line line (l, w) =
    let data := payload line in
    let w := print (P_endpoint_recibido data)
               (print (P_datos data) (print (P_recibido line) w)) in
    ({| current_event := None; event_data := data |},
     if PyStr.contains session_sep data
     then set_endpoint_event_received true
            (print (P_nuevo_id (session_of data))
               (set_SESSION_ID (Some (session_of data)) w))
     else w).
Proof.
  unfold is_data_line, sse_awaiting_endpoint, read_line, payload.
  intros Hd Ha.
  destruct (PyStr.truthy line); [|discriminate].
  destruct (PyStr.startswith line "event:"); [discriminate|].
  destruct (PyStr.startswith line "data:"); [|discriminate].
  destruct (current_event l) as [ev|]; [|discriminate].
  rewrite Ha. reflexivity.
Qed.

(** Every other line leaves [SESSION_ID] and the event flag alone. *)
Lemma read_line_other line l w :
  is_data_line line && sse_awaiting_endpoint l = false ->
  let w' := snd (read_line line (l, w)) in
  SESSION_ID w' = SESSION_ID w
  /\ endpoint_event_received w' = endpoint_event_received w.
Proof.
  unfold is_data_line, sse_awaiting_endpoint, read_line.
  intros H.
  destruct (PyStr.truthy line); [|done].
  destruct (PyStr.startswith line "event:"); [done|].
  destruct (PyStr.startswith line "data:"); [|done].
  cbn [negb andb] in *.
  destruct (current_event l) as [ev|]; [|done].
  rewrite H. done.
Qed.

Lemma read_line_event_flag line st :
  endpoint_event_received (snd st) = true ->
  endpoint_event_received (snd (read_line line st)) = true.
Proof.
  destruct st as [l w]. intros H.
  destruct (is_data_line line && sse_awaiting_endpoint l) eqn:E.
  - apply andb_prop in E as [Hd Ha].
    rewrite (read_line_endpoint_data _ _ _ Hd Ha). cbn.
    destruct (PyStr.contains _ _); done.
  - destruct (read_line_other line l w E) as (_ & ->). exact H.
Qed.

Lemma read_lines_event_flag lines st :
  endpoint_event_received (snd st) = true ->
  endpoint_event_received (snd (read_lines lines st)) = true.
Proof.
  revert st. induction lines as [|x xs IH]; intros st H; [exact H|].
  apply IH, read_line_event_flag, H.
Qed.

(** Each data line prints its payload once; no other line prints one. *)
Lemma read_line_datos line st :
  datos_printed (stdout (snd (read_line line st)))
  = datos_printed (stdout (snd st))
    ++ (if is_data_line line then [payload line] else []).
Proof.
  destruct st as [l w].
  unfold is_data_line, read_line, payload, datos_printed.
  destruct (PyStr.truthy line); [|cbn; now rewrite app_nil_r].
  destruct (PyStr.startswith line "event:").
  { cbn. rewrite !omap_app. cbn. now rewrite !app_nil_r. }
  destruct (PyStr.startswith line "data:").
  2:{ cbn. rewrite !omap_app. cbn. now rewrite !app_nil_r. }
  destruct (current_event l) as [ev|].
  2:{ cbn. rewrite !omap_app, <- !app_assoc. reflexivity. }
  destruct (String.eqb ev "endpoint").
  2:{ cbn. rewrite !omap_app, <- !app_assoc. reflexivity. }
  destruct (PyStr.contains _ _); cbn;
    rewrite !omap_app, <- !app_assoc; cbn; reflexivity.
Qed.

Lemma read_lines_datos lines st :
  datos_printed (stdout (snd (read_lines lines st)))
  = datos_printed (stdout (snd st)) ++ map payload (List.filter is_data_line lines).
Proof.
  revert st. induction lines as [|x xs IH]; intros st.
  - cbn. now rewrite app_nil_r.
  - cbn [read_lines fold_left]. fold (read_lines xs (read_line x st)).
    rewrite IH, read_line_datos. cbn [List.filter].
    destruct (is_data_line x); cbn; rewrite <- app_assoc; reflexivity.
Qed.

End SseReader.

(** ** Session negotiation (claims C1, C2, C3, C8) *)

Lemma prefix_app p s : String.prefix p (p +:+ s) = true.
Proof.
  induction p as [|a p IH]; [now destruct s|].
  rewrite str_app_cons. cbn [String.prefix].
  destruct (ascii_dec a a); [exact IH|congruence].
Qed.

(** What [split('?sessionId=')[1]] is: the text between the first
    separator and the next one, or the end of the data. *)
Lemma session_of_spec d :
  PyStr.contains session_sep d = true ->
  exists pre tail,
    d = pre +:+ session_sep +:+ session_of d +:+ tail
    /\ (tail = "" \/ String.prefix session_sep tail = true).
Proof.
  intros H.
  pose proof (contains_split_go session_sep "" d ltac:(discriminate) H) as Hlen.
  pose proof (join_split session_sep d ltac:(discriminate)) as Hjoin.
  unfold session_of. fold (PyStr.split session_sep d) in Hlen.
  destruct (PyStr.split session_sep d) as [|pre [|sid more]];
    [simpl in Hlen; lia|simpl in Hlen; lia|].
  cbn [lookup list_lookup]. exists pre.
  destruct more as [|m ms].
  - exists "". split; [|now left].
    rewrite str_app_nil_r. symmetry. exact Hjoin.
  - exists (session_sep +:+ String.concat session_sep (m :: ms)).
    split; [|right; apply prefix_app].
    symmetry. exact Hjoin.
Qed.

Section Negotiation.

Variable json_loads : string -> option pyobj.

Lemma mcp_session_present_init url : mcp_session_present (TestMcpClient.__init__ url).
Proof. intros H. discriminate H. Qed.

Lemma mcp_session_present_step line st :
  mcp_session_present (snd st) ->
  mcp_session_present (snd (TestMcpClient.process_line json_loads line st)).
Proof.
  destruct st as [l w]. unfold mcp_session_present. intros Inv.
  destruct (is_data_line line && mcp_awaiting_endpoint l) eqn:E.
  - apply andb_prop in E as [Hd Ha].
    rewrite (process_line_endpoint_data _ _ _ _ Hd Ha). cbn.
    destruct (PyStr.contains _ _); cbn; [eauto|].
    intros Hc. destruct (Inv Hc) as [Hs _]. eauto.
  - destruct (process_line_other json_loads line l w E) as (-> & -> & -> & _).
    exact Inv.
Qed.

Lemma mcp_session_present_steps lines st :
  mcp_session_present (snd st) ->
  mcp_session_present (snd (TestMcpClient.process_lines json_loads lines st)).
Proof.
  revert st. induction lines as [|x xs IH]; intros st H; [exact H|].
  apply IH, mcp_session_present_step, H.
Qed.

Lemma mcp_session_present_close w : mcp_session_present (TestMcpClient.close w).
Proof.
  unfold mcp_session_present, TestMcpClient.close.
  destruct (TestMcpClient.sse_response w) as [h|]; [destruct (TestMcpClient.response_ok _)|];
    cbn; discriminate.
Qed.

End Negotiation.

(** C1, as stated, fails on [process_sse]: the reader has no readiness
    guard, so a second endpoint frame met after the session is ready
    replaces [session_id] and [message_endpoint]. *)
Lemma C1_second_endpoint_overwrites :
  let st1 := TestMcpClient.process_lines json_loads_lit
               ["event: endpoint"; "data: /msg?sessionId=abc123"]
               (TestMcpClient.locals0, TestMcpClient.__init__ "http://localhost:3005") in
  let st2 := TestMcpClient.process_lines json_loads_lit
               ["event: endpoint"; "data: /msg?sessionId=zzz"] st1 in
  TestMcpClient.connected (snd st1) = true
  /\ TestMcpClient.session_id (snd st1) = Some "abc123"
  /\ TestMcpClient.message_endpoint (snd st1) = Some "/msg?sessionId=abc123"
  /\ TestMcpClient.session_id (snd st2) = Some "zzz"
  /\ TestMcpClient.message_endpoint (snd st2) = Some "/msg?sessionId=zzz"
  /\ TestMcpClient.session_id (snd st2) <> TestMcpClient.session_id (snd st1).
Proof. vm_compute. repeat split; try reflexivity. discriminate. Qed.

Section ReaderClaims.

Variable json_loads : string -> option pyobj.

(** C1, amended: once the session is ready the ready flag ([connected],
    [endpoint_received]; [endpoint_event_received] in test-sse.py) stays
    set under every later line, and a later line changes the session
    attributes only when it is a data line read while the pending event
    type is ['endpoint']: that line replaces [message_endpoint] by its
    payload and, when the payload contains ['?sessionId='], [session_id]
    ([SESSION_ID]) by the id split from it. *)
Theorem C1_ready_kept_session_follows_endpoint_frames
    (lines : list string) (line : string)
    (st : TestMcpClient.locals * TestMcpClient.world)
    (rd : TestSse.locals * TestSse.world) :
  TestMcpClient.connected (snd st) = true ->
  TestMcpClient.endpoint_received (snd st) = true ->
  TestSse.endpoint_event_received (snd rd) = true ->
  let st1 := TestMcpClient.process_lines json_loads lines st in
  let st2 := TestMcpClient.process_line json_loads line st1 in
  let rd1 := TestSse.read_lines lines rd in
  let rd2 := TestSse.read_line line rd1 in
  (TestMcpClient.connected (snd st2) = true
   /\ TestMcpClient.endpoint_received (snd st2) = true
   /\ TestSse.endpoint_event_received (snd rd2) = true)
  /\ (if is_data_line line && mcp_awaiting_endpoint (fst st1)
      then TestMcpClient.message_endpoint (snd st2) = Some (payload line)
           /\ TestMcpClient.session_id (snd st2)
              = (if PyStr.contains session_sep (payload line)
                 then Some (session_of (payload line))
                 else TestMcpClient.session_id (snd st1))
      else TestMcpClient.message_endpoint (snd st2) = TestMcpClient.message_endpoint (snd st1)
           /\ TestMcpClient.session_id (snd st2) = TestMcpClient.session_id (snd st1))
  /\ (if is_data_line line && sse_awaiting_endpoint (fst rd1)
      then TestSse.SESSION_ID (snd rd2)
           = (if PyStr.contains session_sep (payload line)
              then Some (session_of (payload line))
              else TestSse.SESSION_ID (snd rd1))
      else TestSse.SESSION_ID (snd rd2) = TestSse.SESSION_ID (snd rd1)).
Proof.
  intros Hc He Hr st1 st2 rd1 rd2. split; [|split].
  - repeat split.
    + apply process_line_connected, process_lines_connected, Hc.
    + apply process_line_endpoint_received, process_lines_endpoint_received, He.
    + apply read_line_event_flag, read_lines_event_flag, Hr.
  - subst st2. destruct st1 as [l w]. cbn [fst snd].
    destruct (is_data_line line && mcp_awaiting_endpoint l) eqn:E.
    + apply andb_prop in E as [Hd Ha].
      rewrite (process_line_endpoint_data _ _ _ _ Hd Ha). cbn.
      destruct (PyStr.contains _ _); done.
    + destruct (process_line_other json_loads line l w E) as (-> & -> & _). done.
  - subst rd2. destruct rd1 as [l w]. cbn [fst snd].
    destruct (is_data_line line && sse_awaiting_endpoint l) eqn:E.
    + apply andb_prop in E as [Hd Ha].
      rewrite (read_line_endpoint_data _ _ _ Hd Ha). cbn.
      destruct (PyStr.contains _ _); done.
    + destruct (read_line_other line l w E) as (-> & _). done.
Qed.

End ReaderClaims.

(** C1, amended, at a session made ready by [/msg?sessionId=abc123] that
    then meets a second endpoint frame: it stays ready and now holds the
    id and the path of the second frame. *)
Lemma C1_ready_kept_witness :
  let st := TestMcpClient.process_lines json_loads_lit
              ["event: endpoint"; "data: /msg?sessionId=abc123"]
              (TestMcpClient.locals0, TestMcpClient.__init__ "http://localhost:3005") in
  let rd := TestSse.read_lines
              ["event: endpoint"; "data: /msg?sessionId=abc123"]
              (TestSse.locals0, TestSse.world0) in
  let st2 := TestMcpClient.process_lines json_loads_lit
               ["event: endpoint"; "data: /msg?sessionId=zzz"] st in
  TestMcpClient.connected (snd st) = true
  /\ TestMcpClient.endpoint_received (snd st) = true
  /\ TestSse.endpoint_event_received (snd rd) = true
  /\ TestMcpClient.connected (snd st2) = true
  /\ TestMcpClient.message_endpoint (snd st2) = Some "/msg?sessionId=zzz"
  /\ TestMcpClient.session_id (snd st2) = Some "zzz".
Proof.
  intros st rd st2.
  pose proof (C1_ready_kept_session_follows_endpoint_frames json_loads_lit
                ["event: endpoint"] "data: /msg?sessionId=zzz" st rd
                eq_refl eq_refl eq_refl) as H.
  cbv zeta in H. destruct H as ((Hc & _ & _) & Hm & _).
  split; [reflexivity|]. split; [reflexivity|]. split; [reflexivity|].
  split; [exact Hc|]. split; [exact (proj1 Hm)|exact (proj2 Hm)].
Defined.

(** C2, as stated, fails on [process_sse] and [read_sse]: neither waits
    for a blank line.  A stream that ends after the data line of an
    endpoint frame, with no blank line anywhere, has already delivered
    that frame to the session attributes and to the console. *)
Lemma C2_partial_frame_is_delivered :
  let lines := ["event: endpoint"; "data: /msg?sessionId=abc123"] in
  let w := TestMcpClient.process_sse json_loads_lit lines
             (TestMcpClient.__init__ "http://localhost:3005") in
  let r := TestSse.read_sse lines TestSse.world0 in
  Forall (fun line => line <> "") lines
  /\ TestMcpClient.connected w = true
  /\ TestMcpClient.session_id w = Some "abc123"
  /\ TestSse.SESSION_ID r = Some "abc123"
  /\ datos_printed (TestSse.stdout r) = ["/msg?sessionId=abc123"].
Proof.
  cbv zeta. split; [repeat constructor; discriminate|].
  vm_compute. repeat split; reflexivity.
Qed.

Section FrameClaims.

Variable json_loads : string -> option pyobj.

(** C2, amended: the readers handle a frame at its data line, as soon as
    that line is read: [read_sse] prints the payloads of the lines that
    start with ['data:'], one per such line and in order, whether or not
    a blank line follows; a blank line is skipped without any effect;
    the payload kept in [event_data] is that of the latest data line. *)
Theorem C2_one_frame_per_data_line
    (lines : list string) (line : string) (w : TestSse.world)
    (rd : TestSse.locals * TestSse.world)
    (st : TestMcpClient.locals * TestMcpClient.world) :
  datos_printed (TestSse.stdout (TestSse.read_sse lines w))
    = datos_printed (TestSse.stdout w) ++ map payload (List.filter is_data_line lines)
  /\ TestSse.read_line "" rd = rd
  /\ TestMcpClient.process_line json_loads "" st = st
  /\ TestSse.event_data (fst (TestSse.read_line line rd))
     = (if is_data_line line then payload line else TestSse.event_data (fst rd))
  /\ TestMcpClient.event_data (fst (TestMcpClient.process_line json_loads line st))
     = (if is_data_line line then payload line else TestMcpClient.event_data (fst st)).
Proof.
  split; [|split; [|split; [|split]]].
  - unfold TestSse.read_sse. apply read_lines_datos.
  - apply read_line_blank.
  - apply process_line_blank.
  - destruct rd as [l r]. unfold is_data_line, TestSse.read_line, payload.
    destruct (PyStr.truthy line); [|done].
    destruct (PyStr.startswith line "event:"); [done|].
    destruct (PyStr.startswith line "data:"); [|done].
    destruct (TestSse.current_event l) as [ev|]; [|done].
    destruct (String.eqb ev "endpoint"); done.
  - destruct st as [l m]. unfold is_data_line, TestMcpClient.process_line, payload.
    destruct (PyStr.truthy line); [|done].
    destruct (PyStr.startswith line "event:"); [done|].
    destruct (PyStr.startswith line "data:"); [|done].
    destruct (TestMcpClient.current_event l) as [ev|]; [|done].
    destruct (String.eqb ev "endpoint"); [done|].
    destruct (PyStr.truthy ev); done.
Qed.

End FrameClaims.

(** ** Reachable states of [MCPClient] *)

Section McpReachable.

Variable json_loads : string -> option pyobj.

(** [send_request] reads the client: it prints and posts, nothing else. *)
Lemma send_request_frame now post method params w :
  let w' := snd (TestMcpClient.send_request json_loads now post method params w) in
  TestMcpClient.session_id w' = TestMcpClient.session_id w
  /\ TestMcpClient.message_endpoint w' = TestMcpClient.message_endpoint w
  /\ TestMcpClient.connected w' = TestMcpClient.connected w
  /\ TestMcpClient.endpoint_received w' = TestMcpClient.endpoint_received w.
Proof.
  unfold TestMcpClient.send_request.
  destruct (TestMcpClient.connected w) eqn:Ec; [|done].
  destruct (TestMcpClient.message_endpoint w) as [ep|] eqn:Em; [|done].
  destruct (TestMcpClient.session_id w) as [sid|] eqn:Es; [|done].
  destruct (PyStr.truthy ep && PyStr.truthy sid); [|done].
  cbv zeta. destruct (post _ _) as [e|r]; [done|].
  destruct (negb _); [done|]. destruct (json_loads _); done.
Qed.

Lemma mcp_session_present_send now post method params w :
  mcp_session_present w ->
  mcp_session_present (snd (TestMcpClient.send_request json_loads now post method params w)).
Proof.
  unfold mcp_session_present.
  destruct (send_request_frame now post method params w) as (-> & -> & -> & _).
  auto.
Qed.

Lemma mcp_session_present_connect get lines w :
  mcp_session_present w ->
  mcp_session_present (snd (snd (TestMcpClient.connect json_loads get lines w))).
Proof.
  intros Inv. unfold TestMcpClient.connect.
  destruct get as [e|r]; [exact Inv|].
  destruct (negb _); [exact Inv|].
  match goal with
  | |- context [TestMcpClient.process_lines _ _ ?s] =>
      pose proof (mcp_session_present_steps json_loads lines s Inv) as H;
      destruct (TestMcpClient.process_lines json_loads lines s) as [l' w']
  end.
  destruct (TestMcpClient.endpoint_received w'); exact H.
Qed.

Lemma mcp_session_present_run actions st :
  mcp_session_present (snd st) ->
  mcp_session_present (snd (mcp_run json_loads actions st)).
Proof.
  revert st. induction actions as [|a actions IH]; intros st Inv; [exact Inv|].
  apply IH. destruct a; cbn [mcp_step snd].
  - apply mcp_session_present_connect, Inv.
  - apply mcp_session_present_steps, Inv.
  - apply mcp_session_present_send, Inv.
  - apply mcp_session_present_close.
Qed.

(** C8, amended: in every state an [MCPClient] reaches, [connected]
    implies that [session_id] and [message_endpoint] both hold a string;
    and [connected] turns true only on the data line of an endpoint frame
    whose payload contains ['?sessionId='], which assigns the payload to
    [message_endpoint] and the piece of the payload after the first
    separator (up to the next one, if any) to [session_id]. *)
Theorem C8_connected_implies_session_present
    (url : string) (actions : list mcp_action) (line : string) :
  let st := mcp_run json_loads actions (TestMcpClient.locals0, TestMcpClient.__init__ url) in
  let st' := TestMcpClient.process_line json_loads line st in
  TestMcpClient.connected (snd st') = true ->
  (is_Some (TestMcpClient.session_id (snd st'))
   /\ is_Some (TestMcpClient.message_endpoint (snd st')))
  /\ (TestMcpClient.connected (snd st) = false ->
      is_data_line line = true
      /\ mcp_awaiting_endpoint (fst st) = true
      /\ PyStr.contains session_sep (payload line) = true
      /\ TestMcpClient.message_endpoint (snd st') = Some (payload line)
      /\ TestMcpClient.session_id (snd st') = Some (session_of (payload line))
      /\ exists pre tail,
           payload line = pre +:+ session_sep +:+ session_of (payload line) +:+ tail
           /\ (tail = "" \/ String.prefix session_sep tail = true)).
Proof.
  intros st st' Hc. split.
  - apply (mcp_session_present_step json_loads line st); [|exact Hc].
    apply mcp_session_present_run, mcp_session_present_init.
  - intros Hn. subst st'. destruct st as [l w]. cbn [fst snd] in *.
    destruct (is_data_line line && mcp_awaiting_endpoint l) eqn:E.
    + apply andb_prop in E as [Hd Ha].
      rewrite (process_line_endpoint_data _ _ _ _ Hd Ha) in Hc |- *.
      cbn in Hc |- *.
      destruct (PyStr.contains session_sep (payload line)) eqn:Hin.
      * repeat split; auto. apply session_of_spec, Hin.
      * cbn in Hc. congruence.
    + destruct (process_line_other json_loads line l w E) as (_ & _ & Hk & _).
      cbn [snd] in Hc. congruence.
Qed.

End McpReachable.

(** C8, as stated, fails: [message_endpoint] is assigned before the test
    for ['?sessionId='], so an endpoint frame without it, met while
    connected, replaces [message_endpoint] alone and the two attributes
    no longer agree. *)
Lemma C8_later_endpoint_breaks_agreement :
  let w := TestMcpClient.process_sse json_loads_lit
             ["event: endpoint"; "data: /msg?sessionId=abc123";
              "event: endpoint"; "data: /other"]
             (TestMcpClient.__init__ "http://localhost:3005") in
  TestMcpClient.connected w = true
  /\ TestMcpClient.session_id w = Some "abc123"
  /\ TestMcpClient.message_endpoint w = Some "/other"
  /\ PyStr.contains "?sessionId=" "/other" = false
  /\ (forall pre, "/other" <> pre +:+ "?sessionId=" +:+ "abc123").
Proof.
  cbv zeta. repeat split; try reflexivity.
  intros pre H. apply (f_equal String.length) in H.
  rewrite !str_length_app in H. cbn in H. lia.
Qed.

(** C8, amended, at a client that has just read its first endpoint frame. *)
Lemma C8_connected_witness :
  let st := mcp_run json_loads_lit [McpLines ["event: endpoint"]]
              (TestMcpClient.locals0, TestMcpClient.__init__ "http://localhost:3005") in
  let st' := TestMcpClient.process_line json_loads_lit "data: /msg?sessionId=abc123" st in
  TestMcpClient.connected (snd st') = true
  /\ is_Some (TestMcpClient.session_id (snd st'))
  /\ is_Some (TestMcpClient.message_endpoint (snd st')).
Proof.
  intros st st'. split; [reflexivity|].
  exact (proj1 (C8_connected_implies_session_present json_loads_lit
                  "http://localhost:3005" [McpLines ["event: endpoint"]]
                  "data: /msg?sessionId=abc123" eq_refl)).
Defined.

(** ** The request path of the two test clients *)

Section Requests.

Variable json_loads : string -> option pyobj.

Lemma mcp_ready_init url : mcp_ready (TestMcpClient.__init__ url) = false.
Proof. reflexivity. Qed.


(** The guard of [send_request] (lines 104-106) is [mcp_ready]. *)
Lemma send_request_not_ready now post method params w :
  mcp_ready w = false ->
  TestMcpClient.send_request json_loads now post method params w
  = (PyNone, TestMcpClient.print TestMcpClient.P_no_conexion w).
Proof.
  unfold mcp_ready, TestMcpClient.send_request, PyStr.truthy_opt. intros H.
  destruct (TestMcpClient.connected w); [|reflexivity].
  destruct (TestMcpClient.message_endpoint w) as [ep|]; [|reflexivity].
  destruct (TestMcpClient.session_id w) as [sid|]; [|reflexivity].
  cbn [andb] in H. now rewrite H.
Qed.

(** Past the guard, one POST goes to [server_url + message_endpoint]
    with the clock as request id. *)
Lemma send_request_ready now post method params w :
  mcp_ready w = true ->
  exists ep,
    TestMcpClient.message_endpoint w = Some ep
    /\ TestMcpClient.send_request json_loads now post method params w
       = let request := make_request (PyStr.str now) method (params_or_empty params) in
         let url := TestMcpClient.server_url w +:+ ep in
         let w1 := TestMcpClient.log_post url request
                     (TestMcpClient.print (TestMcpClient.P_url url)
                        (TestMcpClient.print (TestMcpClient.P_enviando request) w)) in
         match post url request with
         | HttpRaises e => (PyNone, TestMcpClient.print (TestMcpClient.P_error_envio e) w1)
         | HttpReturns r =>
             let w2 := TestMcpClient.print (TestMcpClient.P_codigo (status_code r)) w1 in
             if negb (Z.eqb (status_code r) 200)
             then (PyNone, TestMcpClient.print (TestMcpClient.P_error_respuesta (text r)) w2)
             else match json_loads (text r) with
                  | Some v => (v, w2)
                  | None => (PyNone, TestMcpClient.print (TestMcpClient.P_error_json (text r)) w2)
                  end
         end.
Proof.
  unfold mcp_ready, TestMcpClient.send_request, PyStr.truthy_opt. intros H.
  destruct (TestMcpClient.connected w); [|discriminate].
  destruct (TestMcpClient.message_endpoint w) as [ep|]; [|discriminate].
  destruct (TestMcpClient.session_id w) as [sid|];
    [|cbn in H; rewrite andb_false_r in H; discriminate].
  cbn [andb] in H. rewrite H. exists ep. split; [reflexivity|].
  cbn [TestMcpClient.print TestMcpClient.server_url].
  destruct (negb (PyStr.startswith _ "http")); reflexivity.
Qed.

(** In every failure case [MCPClient.send_request] returns [None]. *)
Lemma mcp_send_request_failures now method params w r e :
  (status_code r <> 200%Z \/ json_loads (text r) = None) ->
  fst (TestMcpClient.send_request json_loads now (fun _ _ => HttpReturns r) method params w) = PyNone
  /\ fst (TestMcpClient.send_request json_loads now (fun _ _ => HttpRaises e) method params w) = PyNone.
Proof.
  intros Hr. destruct (mcp_ready w) eqn:E.
  - destruct (send_request_ready now (fun _ _ => HttpReturns r) method params w E) as (ep & _ & ->).
    destruct (send_request_ready now (fun _ _ => HttpRaises e) method params w E) as (ep' & _ & ->).
    cbv zeta. split; [|reflexivity].
    destruct (Z.eqb_spec (status_code r) 200) as [Heq|Hne]; cbn [negb]; [|reflexivity].
    destruct Hr as [Hr|Hr]; [contradiction|]. now rewrite Hr.
  - rewrite !send_request_not_ready by exact E. split; reflexivity.
Qed.

(** The same for the module-level [send_request] of test-sse.py. *)
Lemma sse_send_request_failures now method params sid w r e :
  (status_code r <> 200%Z \/ json_loads (text r) = None) ->
  fst (TestSse.send_request json_loads now (fun _ _ => HttpReturns r) method params sid w) = PyNone
  /\ fst (TestSse.send_request json_loads now (fun _ _ => HttpRaises e) method params sid w) = PyNone.
Proof.
  intros Hr. unfold TestSse.send_request. destruct sid as [sid|]; [|split; reflexivity].
  cbv zeta. split; [|reflexivity].
  destruct (Z.eqb_spec (status_code r) 200) as [Heq|Hne]; cbn [negb]; [|reflexivity].
  destruct Hr as [Hr|Hr]; [contradiction|]. now rewrite Hr.
Qed.

End Requests.

(** ** The legacy client *)

Section LegacyFacts.

Import Legacy.

Variable json_loads : string -> option pyobj.

(** Callbacks only add to the call log. *)
Lemma run_callbacks_frame cbs a w :
  legacy_core (snd (run_callbacks cbs a w)) = legacy_core w
  /\ legacy_link (snd (run_callbacks cbs a w)) = legacy_link w.
Proof.
  revert w. induction cbs as [|cb cbs IH]; intros w; [done|].
  cbn [run_callbacks]. destruct (cb_body cb a); [done|].
  apply (IH (log_call (cb_name cb) a w)).
Qed.

Lemma trigger_event_frame event a w :
  legacy_core (snd (_trigger_event event a w)) = legacy_core w
  /\ legacy_link (snd (_trigger_event event a w)) = legacy_link w.
Proof.
  unfold _trigger_event. destruct (event_handlers w !! event); [|done].
  apply run_callbacks_frame.
Qed.

Lemma process_event_frame ev w :
  legacy_core (snd (process_event json_loads ev w)) = legacy_core w
  /\ legacy_link (snd (process_event json_loads ev w)) = legacy_link w.
Proof.
  unfold process_event. destruct (json_loads (ev_data ev)) as [v|].
  - pose proof (trigger_event_frame "message" (ArgObj v) (print (P_mensaje v) w)) as [H1 H1'].
    destruct (_trigger_event "message" (ArgObj v) (print (P_mensaje v) w)) as [[e|] w1];
      [|done].
    cbn [snd] in H1, H1'.
    pose proof (trigger_event_frame "message" (ArgObj (PyStr (ev_data ev)))
                  (print (P_mensaje_no_json (ev_data ev)) w1)) as [H2 H2'].
    rewrite H2, H2'. split; [exact H1|exact H1'].
  - apply (trigger_event_frame "message" _ (print (P_mensaje_no_json (ev_data ev)) w)).
Qed.

Lemma events_failed_frame e w :
  legacy_core (events_failed e w) = legacy_core w
  /\ legacy_link (events_failed e w) = (false, sse_client w).
Proof.
  unfold events_failed.
  apply (trigger_event_frame "error" (ArgExn e)
           (set_connected false (print (P_error_eventos e) w))).
Qed.

(** The reader thread never writes the address, the session id, the
    counter, the POST log or the handlers; it can only clear [connected]. *)
Lemma process_events_frame events fin w :
  legacy_core (_process_events json_loads events fin w) = legacy_core w
  /\ (legacy_link (_process_events json_loads events fin w) = legacy_link w
      \/ legacy_link (_process_events json_loads events fin w) = (false, sse_client w)).
Proof.
  revert w. induction events as [|ev rest IH]; intros w; cbn [_process_events].
  - destruct fin as [e|]; [|auto].
    destruct (events_failed_frame e w) as [H H']. auto.
  - pose proof (process_event_frame ev w) as [H1 H1'].
    destruct (process_event json_loads ev w) as [[e|] w1]; cbn [snd] in H1, H1'.
    + destruct (events_failed_frame e w1) as [H2 H2'].
      rewrite H2, H2'. split; [exact H1|right].
      injection H1' as _ ->. reflexivity.
    + destruct (IH w1) as [H2 H2']. rewrite H2. split; [exact H1|].
      destruct H2' as [->| ->]; [left; exact H1'|right].
      injection H1' as _ ->. reflexivity.
Qed.

Lemma connect_frame get w :
  legacy_core (snd (connect get w)) = legacy_core w
  /\ legacy_link (snd (connect get w))
     = match get with
       | HttpRaises _ => legacy_link w
       | HttpReturns r => (true, Some r)
       end.
Proof.
  unfold connect. cbv zeta. destruct get as [e|r].
  - pose proof (trigger_event_frame "error" (ArgExn e)
                  (print (P_error_conexion e) (print (P_conectando (server_url w)) w))) as H.
    destruct (_trigger_event _ _ _) as [[e'|] w1]; exact H.
  - pose proof (trigger_event_frame "open" (ArgObj PyNone)
                  (print P_sse_establecida
                     (set_connected true
                        (set_sse_client (Some r) (print (P_conectando (server_url w)) w))))) as [H H'].
    destruct (_trigger_event "open" _ _) as [[e|] w1]; cbn [snd] in H, H'; [|done].
    pose proof (trigger_event_frame "error" (ArgExn e) (print (P_error_conexion e) w1)) as [K K'].
    destruct (_trigger_event "error" _ _) as [[e'|] w2]; cbn [snd] in K, K' |- *;
      rewrite K, K'; split; [exact H|exact H'|exact H|exact H'].
Qed.

Lemma disconnect_frame w :
  legacy_core (disconnect w) = legacy_core w
  /\ legacy_link (disconnect w)
     = match sse_client w with
       | Some _ => (false, None)
       | None => legacy_link w
       end.
Proof. unfold disconnect. destruct (sse_client w); done. Qed.

Lemma on_frame event cb w :
  server_url (on event cb w) = server_url w
  /\ session_id (on event cb w) = session_id w
  /\ request_id (on event cb w) = request_id w
  /\ posts (on event cb w) = posts w
  /\ legacy_link (on event cb w) = legacy_link w.
Proof. unfold on. destruct (event_handlers w !! event); done. Qed.

(** The guard of [execute_method] (lines 76-77). *)
Lemma execute_method_not_connected post method params w :
  connected w = false ->
  execute_method json_loads post method params w
  = (Raises (Exception "No hay conexión SSE activa"), w).
Proof. unfold execute_method. now intros ->. Qed.

(** Past the guard, one POST goes to the url built from [session_id],
    with the counter as request id, and the counter moves on by one. *)
Lemma execute_method_connected post method params w :
  connected w = true ->
  let w' := snd (execute_method json_loads post method params w) in
  server_url w' = server_url w /\ session_id w' = session_id w
  /\ request_id w' = (request_id w + 1)%Z
  /\ posts w' = posts w ++ [(legacy_url w,
                             make_request (PyStr.str (request_id w)) method
                               (params_or_empty params))]
  /\ legacy_link w' = legacy_link w.
Proof.
  unfold execute_method, legacy_url. intros ->. cbn [negb]. cbv zeta.
  cbn [print log_post set_request_id server_url session_id].
  destruct (post _ _) as [e|r]; [done|].
  destruct (json_loads (text r)); done.
Qed.

End LegacyFacts.

Section LegacyInvariant.

Import Legacy.

Variable json_loads : string -> option pyobj.

Lemma legacy_core_fields w w' :
  legacy_core w' = legacy_core w ->
  server_url w' = server_url w /\ session_id w' = session_id w
  /\ request_id w' = request_id w /\ posts w' = posts w.
Proof. unfold legacy_core. intros [= -> -> -> -> _]. done. Qed.

Lemma legacy_link_fields w w' :
  legacy_link w' = legacy_link w ->
  connected w' = connected w /\ sse_client w' = sse_client w.
Proof. unfold legacy_link. intros [= -> ->]. done. Qed.

Lemma request_id_of_make_request id method params :
  request_id_of (make_request id method params) = Some id.
Proof. reflexivity. Qed.

Lemma posted_ids_snoc posts url id method params :
  posted_ids (posts ++ [(url, make_request id method params)]) = posted_ids posts ++ [id].
Proof. unfold posted_ids. now rewrite omap_app. Qed.

Lemma counter_ids_S n :
  counter_ids (S n) = counter_ids n ++ [PyStr.str (1 + Z.of_nat n)].
Proof. unfold counter_ids. now rewrite seq_S, fmap_app. Qed.

Lemma counter_ids_NoDup n : NoDup (counter_ids n).
Proof.
  unfold counter_ids. apply NoDup_fmap_2; [|apply NoDup_seq].
  intros i j H. apply str_inj in H. lia.
Qed.

Lemma legacy_inv_init url rng : legacy_inv url rng (__init__ url rng).
Proof. unfold legacy_inv. cbn. repeat split; auto. discriminate. Qed.

(** A step that keeps the request attributes keeps the invariant, if it
    keeps [connected] within [sse_client]. *)
Lemma legacy_inv_core url rng w w' :
  legacy_core w' = legacy_core w ->
  (connected w' = true -> is_Some (sse_client w')) ->
  legacy_inv url rng w -> legacy_inv url rng w'.
Proof.
  intros Hc Hl (I1 & I2 & I3 & I4 & I5 & _).
  apply legacy_core_fields in Hc as (E1 & E2 & E3 & E4).
  unfold legacy_inv. rewrite E1, E2, E3, E4. done.
Qed.

Lemma legacy_inv_step url rng w a :
  legacy_inv url rng w -> legacy_inv url rng (legacy_step json_loads w a).
Proof.
  intros Inv. pose proof Inv as (I1 & I2 & I3 & I4 & I5 & I6).
  destruct a as [get|events fin|event cb|post method params|]; cbn [legacy_step].
  - destruct (connect_frame get w) as [Hc Hl].
    set (w' := snd (connect get w)) in *. clearbody w'.
    apply (legacy_inv_core url rng w); [exact Hc| |exact Inv].
    destruct get as [e|r].
    + apply legacy_link_fields in Hl as [-> ->]. exact I6.
    + injection Hl as _ ->. eauto.
  - destruct (process_events_frame json_loads events fin w) as [Hc Hl].
    set (w' := _process_events json_loads events fin w) in *. clearbody w'.
    apply (legacy_inv_core url rng w); [exact Hc| |exact Inv].
    destruct Hl as [Hl|Hl].
    + apply legacy_link_fields in Hl as [-> ->]. exact I6.
    + injection Hl as -> _. discriminate.
  - destruct (on_frame event cb w) as (E1 & E2 & E3 & E4 & E5).
    set (w' := on event cb w) in *. clearbody w'.
    apply legacy_link_fields in E5 as [E5 E6].
    unfold legacy_inv. rewrite E1, E2, E3, E4, E5, E6. done.
  - destruct (connected w) eqn:Ec.
    + destruct (execute_method_connected json_loads post method params w Ec)
        as (E1 & E2 & E3 & E4 & E5).
      set (w' := snd (execute_method json_loads post method params w)) in *. clearbody w'.
      apply legacy_link_fields in E5 as [E5 E6].
      unfold legacy_inv. rewrite E1, E2, E3, E4, E5, E6.
      rewrite length_app, posted_ids_snoc, Forall_app, Forall_singleton.
      cbn [length fst]. rewrite Nat.add_1_r, counter_ids_S, I4, I5.
      repeat split; auto; [|lia].
      unfold legacy_url. rewrite I1, I2. reflexivity.
    + rewrite execute_method_not_connected by exact Ec. exact Inv.
  - destruct (disconnect_frame w) as [Hc Hl].
    set (w' := disconnect w) in *. clearbody w'.
    apply (legacy_inv_core url rng w); [exact Hc| |exact Inv].
    destruct (sse_client w) eqn:Es.
    + injection Hl as -> _. discriminate.
    + apply legacy_link_fields in Hl as [E5 E6]. rewrite E5, E6, Es. exact I6.
Qed.

Lemma legacy_inv_run url rng actions w :
  legacy_inv url rng w -> legacy_inv url rng (legacy_run json_loads actions w).
Proof.
  revert w. induction actions as [|a actions IH]; intros w Inv; [exact Inv|].
  apply IH, legacy_inv_step, Inv.
Qed.




End LegacyInvariant.

(** ** Calls (claims C6, C10) *)

Section CallClaims.

Variable json_loads : string -> option pyobj.





(** C6, amended: on a 200 response whose body is not valid JSON, the
    [send_request] of the two test clients prints the decoding error
    with the raw body and returns [None]; on a transport exception (a
    timeout is one) it prints the exception and returns [None] as well:
    the console tells the two apart, the returned value does not.  The
    legacy [execute_method] catches neither: the caller gets the
    [JSONDecodeError], which carries the raw body, or the transport's
    own exception. *)
Theorem C6_bad_body_prints_raw_text_returns_none
    (now : Z) (method : string) (params : option pyobj)
    (w : TestMcpClient.world) (sid : string) (sw : TestSse.world)
    (lw : Legacy.world) (r : response) (e : exn) :
  mcp_ready w = true ->
  Legacy.connected lw = true ->
  status_code r = 200%Z ->
  json_loads (text r) = None ->
  let bad := TestMcpClient.send_request json_loads now (fun _ _ => HttpReturns r) method params w in
  let late := TestMcpClient.send_request json_loads now (fun _ _ => HttpRaises e) method params w in
  let bad' := TestSse.send_request json_loads now (fun _ _ => HttpReturns r) method params (Some sid) sw in
  let late' := TestSse.send_request json_loads now (fun _ _ => HttpRaises e) method params (Some sid) sw in
  (fst bad = PyNone
   /\ last (TestMcpClient.stdout (snd bad)) = Some (TestMcpClient.P_error_json (text r))
   /\ fst late = PyNone
   /\ last (TestMcpClient.stdout (snd late)) = Some (TestMcpClient.P_error_envio e))
  /\ (fst bad' = PyNone
      /\ last (TestSse.stdout (snd bad')) = Some (TestSse.P_error_json (text r))
      /\ fst late' = PyNone
      /\ last (TestSse.stdout (snd late')) = Some (TestSse.P_error_envio e))
  /\ (fst (Legacy.execute_method json_loads (fun _ _ => HttpReturns r) method params lw)
      = Raises (JSONDecodeError (text r))
      /\ fst (Legacy.execute_method json_loads (fun _ _ => HttpRaises e) method params lw)
         = Raises e).
Proof.
  intros Hw Hlw Hs Hj bad late bad' late'. split; [|split].
  - subst bad late.
    destruct (send_request_ready json_loads now (fun _ _ => HttpReturns r) method params w Hw)
      as (ep & _ & ->).
    destruct (send_request_ready json_loads now (fun _ _ => HttpRaises e) method params w Hw)
      as (ep' & _ & ->).
    cbv zeta. rewrite Hs, Hj. cbn. rewrite !last_snoc. done.
  - subst bad' late'. unfold TestSse.send_request. cbv zeta.
    rewrite Hs, Hj. cbn. rewrite !last_snoc. done.
  - unfold Legacy.execute_method. rewrite Hlw. cbn [negb]. cbv zeta.
    rewrite Hj. done.
Qed.

(** C10: [MCPClient.send_request] returns [None] in each failure case:
    no established session, a status other than 200, a body that is not
    JSON, an exception of the transport; and so does the module-level
    [send_request] of test-sse.py (there the first case is a missing
    session id). *)
Theorem C10_every_failure_returns_none
    (now : Z) (post : poster) (method : string) (params : option pyobj)
    (w w' : TestMcpClient.world) (sid : option string) (sw : TestSse.world)
    (r_status r_body : response) (e : exn) :
  mcp_ready w = false ->
  status_code r_status <> 200%Z ->
  status_code r_body = 200%Z ->
  json_loads (text r_body) = None ->
  (fst (TestMcpClient.send_request json_loads now post method params w) = PyNone
   /\ fst (TestMcpClient.send_request json_loads now (fun _ _ => HttpReturns r_status) method params w') = PyNone
   /\ fst (TestMcpClient.send_request json_loads now (fun _ _ => HttpReturns r_body) method params w') = PyNone
   /\ fst (TestMcpClient.send_request json_loads now (fun _ _ => HttpRaises e) method params w') = PyNone)
  /\ (fst (TestSse.send_request json_loads now post method params None sw) = PyNone
      /\ fst (TestSse.send_request json_loads now (fun _ _ => HttpReturns r_status) method params sid sw) = PyNone
      /\ fst (TestSse.send_request json_loads now (fun _ _ => HttpReturns r_body) method params sid sw) = PyNone
      /\ fst (TestSse.send_request json_loads now (fun _ _ => HttpRaises e) method params sid sw) = PyNone).
Proof.
  intros Hw Hs Hb Hj. split; repeat split.
  - now rewrite send_request_not_ready.
  - apply (mcp_send_request_failures json_loads now method params w' r_status e). now left.
  - apply (mcp_send_request_failures json_loads now method params w' r_body e). now right.
  - apply (mcp_send_request_failures json_loads now method params w' r_body e). now right.
  - apply (sse_send_request_failures json_loads now method params sid sw r_status e). now left.
  - apply (sse_send_request_failures json_loads now method params sid sw r_body e). now right.
  - apply (sse_send_request_failures json_loads now method params sid sw r_body e). now right.
Qed.

End CallClaims.

(** C6, as stated, fails on both test clients: a body that is not JSON
    and a timeout of the transport give the caller the same value,
    [None]. *)
Lemma C6_bad_body_and_timeout_return_the_same :
  let ready := TestMcpClient.process_sse json_loads_lit
                 ["event: endpoint"; "data: /msg?sessionId=abc123"]
                 (TestMcpClient.__init__ "http://localhost:3005") in
  let r := {| status_code := 200; text := "<html>Bad Gateway</html>" |} in
  let e := Exception "HTTPConnectionPool: Read timed out." in
  let bad := TestMcpClient.send_request json_loads_lit 1730000000
               (fun _ _ => HttpReturns r) "get-methods" None ready in
  let late := TestMcpClient.send_request json_loads_lit 1730000000
                (fun _ _ => HttpRaises e) "get-methods" None ready in
  let bad' := TestSse.send_request json_loads_lit 1730000000
                (fun _ _ => HttpReturns r) "get-methods" None (Some "abc123") TestSse.world0 in
  let late' := TestSse.send_request json_loads_lit 1730000000
                 (fun _ _ => HttpRaises e) "get-methods" None (Some "abc123") TestSse.world0 in
  mcp_ready ready = true
  /\ json_loads_lit (text r) = None
  /\ fst bad = PyNone /\ fst late = PyNone /\ fst bad = fst late
  /\ fst bad' = PyNone /\ fst late' = PyNone /\ fst bad' = fst late'.
Proof. vm_compute. repeat split; reflexivity. Qed.

(** C6, amended, at a ready client that gets an HTML error page with
    status 200. *)
Lemma C6_bad_body_witness :
  let ready := TestMcpClient.process_sse json_loads_lit
                 ["event: endpoint"; "data: /msg?sessionId=abc123"]
                 (TestMcpClient.__init__ "http://localhost:3005") in
  let r := {| status_code := 200; text := "<html>Bad Gateway</html>" |} in
  let e := Exception "HTTPConnectionPool: Read timed out." in
  let bad := TestMcpClient.send_request json_loads_lit 1730000000
               (fun _ _ => HttpReturns r) "get-methods" None ready in
  let lw := snd (Legacy.connect (HttpReturns {| status_code := 200; text := "" |})
                   (Legacy.__init__ "http://localhost:3003" (fun i => i))) in
  (mcp_ready ready = true /\ Legacy.connected lw = true
   /\ status_code r = 200%Z /\ json_loads_lit (text r) = None)
  /\ fst bad = PyNone
  /\ last (TestMcpClient.stdout (snd bad))
     = Some (TestMcpClient.P_error_json "<html>Bad Gateway</html>").
Proof.
  intros ready r e bad lw.
  pose proof (C6_bad_body_prints_raw_text_returns_none json_loads_lit 1730000000
                "get-methods" None ready "abc123" TestSse.world0 lw r e
                eq_refl eq_refl eq_refl eq_refl) as H.
  cbv zeta in H. destruct H as ((Hv & Hp & _) & _).
  split; [repeat split|]. split; [exact Hv|exact Hp].
Defined.

(** C10 at a fresh client, a 500 response, an HTML body and a refused
    connection. *)
Lemma C10_every_failure_witness :
  let fresh := TestMcpClient.__init__ "http://localhost:3005" in
  let ready := TestMcpClient.process_sse json_loads_lit
                 ["event: endpoint"; "data: /msg?sessionId=abc123"] fresh in
  let r_status := {| status_code := 500; text := "Internal Server Error" |} in
  let r_body := {| status_code := 200; text := "<html>Bad Gateway</html>" |} in
  let e := Exception "Connection refused" in
  let post : poster := fun _ _ => HttpReturns {| status_code := 200; text := "{}" |} in
  (mcp_ready fresh = false /\ status_code r_status <> 200%Z
   /\ status_code r_body = 200%Z /\ json_loads_lit (text r_body) = None)
  /\ mcp_ready ready = true
  /\ fst (TestMcpClient.send_request json_loads_lit 1730000000 post "get-methods" None fresh) = PyNone
  /\ fst (TestMcpClient.send_request json_loads_lit 1730000000 (fun _ _ => HttpReturns r_status) "get-methods" None ready) = PyNone
  /\ fst (TestMcpClient.send_request json_loads_lit 1730000000 (fun _ _ => HttpReturns r_body) "get-methods" None ready) = PyNone
  /\ fst (TestMcpClient.send_request json_loads_lit 1730000000 (fun _ _ => HttpRaises e) "get-methods" None ready) = PyNone.
Proof.
  intros fresh ready r_status r_body e post.
  assert (Hs : status_code r_status <> 200%Z) by discriminate.
  pose proof (C10_every_failure_returns_none json_loads_lit 1730000000 post
                "get-methods" None fresh ready (Some "abc123") TestSse.world0
                r_status r_body e eq_refl Hs eq_refl eq_refl) as H.
  destruct H as ((H1 & H2 & H3 & H4) & _).
  split; [repeat split; exact Hs|]. split; [reflexivity|].
  repeat split; assumption.
Defined.

(** ** Request ids, the legacy session id and the message callbacks
       (claims C4, C9, C7) *)

Section LegacyClaims.

Variable json_loads : string -> option pyobj.

(** C4, amended: the legacy client numbers its requests from a counter
    that starts at 1 and moves by one per request sent, so over any use
    of one client the ids sent are [str(1)], [str(2)], ... in this order,
    each greater than the one before and none used twice.  The two test
    clients have no counter: the id of a request is the clock's whole
    seconds at the call, [str(int(time.time()))]. *)
Theorem C4_request_ids_follow_the_counter
    (url : string) (rng : nat -> nat) (actions : list legacy_action)
    (now : Z) (post : poster) (method : string) (params : option pyobj)
    (sid : string) (sw : TestSse.world) (mw : TestMcpClient.world) :
  let lw := legacy_run json_loads actions (Legacy.__init__ url rng) in
  (posted_ids (Legacy.posts lw) = counter_ids (length (Legacy.posts lw))
   /\ NoDup (posted_ids (Legacy.posts lw))
   /\ Legacy.request_id lw = (1 + Z.of_nat (length (Legacy.posts lw)))%Z)
  /\ posted_ids (TestSse.posts
                   (snd (TestSse.send_request json_loads now post method params (Some sid) sw)))
     = posted_ids (TestSse.posts sw) ++ [PyStr.str now]
  /\ posted_ids (TestMcpClient.posts
                   (snd (TestMcpClient.send_request json_loads now post method params mw)))
     = posted_ids (TestMcpClient.posts mw) ++ (if mcp_ready mw then [PyStr.str now] else []).
Proof.
  intros lw. split; [|split].
  - destruct (legacy_inv_run json_loads url rng actions _ (legacy_inv_init url rng))
      as (_ & _ & _ & I4 & I5 & _).
    fold lw in I4, I5. repeat split; [exact I4| |exact I5].
    rewrite I4. apply counter_ids_NoDup.
  - unfold TestSse.send_request. cbv zeta.
    destruct (post _ _) as [e|r]; [cbn; apply posted_ids_snoc|].
    destruct (negb _); [cbn; apply posted_ids_snoc|].
    destruct (json_loads _); cbn; apply posted_ids_snoc.
  - destruct (mcp_ready mw) eqn:E.
    + destruct (send_request_ready json_loads now post method params mw E) as (ep & _ & ->).
      cbv zeta. destruct (post _ _) as [e|r]; [cbn; apply posted_ids_snoc|].
      destruct (negb _); [cbn; apply posted_ids_snoc|].
      destruct (json_loads _); cbn; apply posted_ids_snoc.
    + rewrite send_request_not_ready by exact E. cbn. now rewrite app_nil_r.
Qed.


(** Callbacks that never raise are all called, in registration order. *)
Lemma run_callbacks_quiet cbs a w :
  Forall (fun cb => forall x, Legacy.cb_body cb x = None) cbs ->
  fst (Legacy.run_callbacks cbs a w) = None
  /\ Legacy.calls (snd (Legacy.run_callbacks cbs a w))
     = Legacy.calls w ++ ((fun cb => (Legacy.cb_name cb, a)) <$> cbs)
  /\ Legacy.event_handlers (snd (Legacy.run_callbacks cbs a w)) = Legacy.event_handlers w.
Proof.
  revert w. induction cbs as [|cb cbs IH]; intros w Hq.
  - cbn. now rewrite app_nil_r.
  - apply Forall_cons in Hq as [Hcb Hq]. cbn [Legacy.run_callbacks].
    rewrite Hcb. destruct (IH (Legacy.log_call (Legacy.cb_name cb) a w) Hq) as (-> & -> & ->).
    cbn. now rewrite <- app_assoc.
Qed.

(** X1 (the part of C7 that holds): when no registered message callback
    raises, [_process_events] calls each of them exactly once per event,
    events in stream order and callbacks in registration order, with the
    event's data decoded as JSON when it is valid JSON and with the raw
    string otherwise. *)
Lemma process_events_quiet cbs events w :
  Legacy.event_handlers w !! "message" = Some cbs ->
  Forall (fun cb => forall x, Legacy.cb_body cb x = None) cbs ->
  Legacy.calls (Legacy._process_events json_loads events None w)
  = Legacy.calls w
    ++ mjoin ((fun ev => (fun cb => (Legacy.cb_name cb, Legacy.ArgObj (decoded_data json_loads ev)))
                         <$> cbs) <$> events).
Proof.
  intros Hh Hq. revert w Hh. induction events as [|ev rest IH]; intros w Hh.
  - cbn. now rewrite app_nil_r.
  - cbn [Legacy._process_events fmap list_fmap mjoin list_join].
    unfold Legacy.process_event, decoded_data.
    destruct (json_loads (Legacy.ev_data ev)) as [v|].
    + unfold Legacy._trigger_event.
      cbn [Legacy.print Legacy.event_handlers]. rewrite Hh.
      pose proof (run_callbacks_quiet cbs (Legacy.ArgObj v)
                    (Legacy.print (Legacy.P_mensaje v) w) Hq) as (H1 & H2 & H3).
      destruct (Legacy.run_callbacks cbs (Legacy.ArgObj v) _) as [o w1].
      cbn [fst snd] in *. subst o. rewrite IH by (rewrite H3; exact Hh).
      rewrite H2. cbn. now rewrite <- app_assoc.
    + unfold Legacy._trigger_event.
      cbn [Legacy.print Legacy.event_handlers]. rewrite Hh.
      pose proof (run_callbacks_quiet cbs (Legacy.ArgObj (PyStr (Legacy.ev_data ev)))
                    (Legacy.print (Legacy.P_mensaje_no_json (Legacy.ev_data ev)) w) Hq)
        as (H1 & H2 & H3).
      destruct (Legacy.run_callbacks cbs _ _) as [o w1].
      cbn [fst snd] in *. subst o. rewrite IH by (rewrite H3; exact Hh).
      rewrite H2. cbn. now rewrite <- app_assoc.
Qed.

End LegacyClaims.

(** C4, as stated, fails on the two test clients: two calls within the
    same second of the clock send the same request id. *)
Lemma C4_same_second_same_id :
  let post : poster := fun _ _ => HttpReturns {| status_code := 200; text := "{}" |} in
  let w1 := snd (TestSse.send_request json_loads_lit 1730000000 post
                   "get-methods" None (Some "abc123") TestSse.world0) in
  let w2 := snd (TestSse.send_request json_loads_lit 1730000000 post
                   "list-tables" None (Some "abc123") w1) in
  posted_ids (TestSse.posts w2) = ["1730000000"; "1730000000"]
  /\ length (TestSse.posts w2) = 2%nat
  /\ ~ NoDup (posted_ids (TestSse.posts w2)).
Proof.
  cbv zeta. split; [reflexivity|]. split; [reflexivity|].
  intros H. apply NoDup_cons in H as [H _]. apply H. left.
Qed.

(** C7 fails on [_process_events] when a message callback raises: the
    bare [except] that is meant for data that is not JSON also catches
    the callback's exception, prints "(no JSON)" and calls the callbacks
    again with the raw text, although the data ([{}]) is valid JSON. *)
Lemma C7_valid_json_is_delivered_again_as_text :
  let logger := {| Legacy.cb_name := "log"; Legacy.cb_body := fun _ => None |} in
  let picky := {| Legacy.cb_name := "picky";
                  Legacy.cb_body := fun a =>
                    match a with
                    | Legacy.ArgObj (PyDict _) => Some (Exception "KeyError: 'id'")
                    | _ => None
                    end |} in
  let w0 := Legacy.on "message" picky
              (Legacy.on "message" logger
                 (Legacy.__init__ "http://localhost:3003" (fun i => i))) in
  let w := Legacy._process_events json_loads_lit
             [{| Legacy.ev_event := "message"; Legacy.ev_data := "{}" |}] None w0 in
  json_loads_lit "{}" = Some (PyDict [])
  /\ Legacy.calls w
     = [("log", Legacy.ArgObj (PyDict [])); ("picky", Legacy.ArgObj (PyDict []));
        ("log", Legacy.ArgObj (PyStr "{}")); ("picky", Legacy.ArgObj (PyStr "{}"))]
  /\ Legacy.stdout w = [Legacy.P_mensaje (PyDict []); Legacy.P_mensaje_no_json "{}"].
Proof. vm_compute. repeat split; reflexivity. Qed.

(** X1 at a client with one callback that never raises, on an event
    with JSON data and one with plain text. *)
Lemma process_events_quiet_witness :
  let logger := {| Legacy.cb_name := "log"; Legacy.cb_body := fun _ => None |} in
  let w := Legacy.on "message" logger (Legacy.__init__ "http://localhost:3003" (fun i => i)) in
  let events := [{| Legacy.ev_event := "message"; Legacy.ev_data := "{}" |};
                 {| Legacy.ev_event := "message"; Legacy.ev_data := "hello" |}] in
  (Legacy.event_handlers w !! "message" = Some [logger]
   /\ Forall (fun cb => forall x, Legacy.cb_body cb x = None) [logger])
  /\ Legacy.calls (Legacy._process_events json_loads_lit events None w)
     = [("log", Legacy.ArgObj (PyDict [])); ("log", Legacy.ArgObj (PyStr "hello"))].
Proof.
  intros logger w events.
  assert (Hq : Forall (fun cb => forall x, Legacy.cb_body cb x = None) [logger])
    by (repeat constructor).
  split; [split; [reflexivity|exact Hq]|].
  exact (process_events_quiet json_loads_lit [logger] events w eq_refl Hq).
Defined.

(** ** The two readers side by side *)

Section ReadersAgree.

Variable json_loads : string -> option pyobj.

(** The pending event type after one line: set by an event line,
    consumed by a data line, kept by any other line. *)
Lemma mcp_awaiting_step line l w :
  mcp_awaiting_endpoint (fst (TestMcpClient.process_line json_loads line (l, w)))
  = if is_event_line line then is_endpoint_event_line line
    else if is_data_line line then false
    else mcp_awaiting_endpoint l.
Proof.
  unfold is_endpoint_event_line, is_event_line, is_data_line, mcp_awaiting_endpoint,
    TestMcpClient.process_line.
  destruct (PyStr.truthy line); [|reflexivity].
  destruct (PyStr.startswith line "event:"); [reflexivity|].
  destruct (PyStr.startswith line "data:"); [|reflexivity].
  cbn [andb negb]. destruct (TestMcpClient.current_event l) as [ev|] eqn:Ec; [|reflexivity].
  destruct (String.eqb ev "endpoint") eqn:Ee; [reflexivity|].
  destruct (PyStr.truthy ev); [reflexivity|].
  cbn [fst TestMcpClient.current_event]. exact Ee.
Qed.

Lemma sse_awaiting_step line l w :
  sse_awaiting_endpoint (fst (TestSse.read_line line (l, w)))
  = if is_event_line line then is_endpoint_event_line line
    else if is_data_line line then false
    else sse_awaiting_endpoint l.
Proof.
  unfold is_endpoint_event_line, is_event_line, is_data_line, sse_awaiting_endpoint,
    TestSse.read_line.
  destruct (PyStr.truthy line); [|reflexivity].
  destruct (PyStr.startswith line "event:"); [reflexivity|].
  destruct (PyStr.startswith line "data:"); [|reflexivity].
  cbn [andb negb]. destruct (TestSse.current_event l) as [ev|] eqn:Ec; [|reflexivity].
  destruct (String.eqb ev "endpoint") eqn:Ee; [reflexivity|].
  cbn [fst TestSse.current_event]. exact Ee.
Qed.

(** One line keeps the two readers in step. *)
Lemma readers_agree_step line m s :
  mcp_awaiting_endpoint (fst m) = sse_awaiting_endpoint (fst s) ->
  TestMcpClient.session_id (snd m) = TestSse.SESSION_ID (snd s) ->
  TestMcpClient.endpoint_received (snd m) = TestSse.endpoint_event_received (snd s) ->
  TestMcpClient.connected (snd m) = TestSse.endpoint_event_received (snd s) ->
  let m' := TestMcpClient.process_line json_loads line m in
  let s' := TestSse.read_line line s in
  mcp_awaiting_endpoint (fst m') = sse_awaiting_endpoint (fst s')
  /\ TestMcpClient.session_id (snd m') = TestSse.SESSION_ID (snd s')
  /\ TestMcpClient.endpoint_received (snd m') = TestSse.endpoint_event_received (snd s')
  /\ TestMcpClient.connected (snd m') = TestSse.endpoint_event_received (snd s').
Proof.
  destruct m as [lm wm], s as [ls ws]. cbn [fst snd]. intros Ha Hs He Hc.
  cbv zeta. split.
  - rewrite mcp_awaiting_step, sse_awaiting_step, Ha. reflexivity.
  - destruct (is_data_line line && mcp_awaiting_endpoint lm) eqn:E.
    + pose proof E as E'. rewrite Ha in E'.
      apply andb_prop in E as [Hd Hm]. apply andb_prop in E' as [_ Hs'].
      rewrite (process_line_endpoint_data _ _ _ _ Hd Hm).
      rewrite (read_line_endpoint_data _ _ _ Hd Hs'). cbn.
      destruct (PyStr.contains session_sep (payload line)); cbn; auto.
    + pose proof E as E'. rewrite Ha in E'.
      destruct (process_line_other json_loads line lm wm E) as (-> & _ & -> & ->).
      destruct (read_line_other line ls ws E') as (-> & ->). auto.
Qed.

Lemma readers_agree_steps lines m s :
  mcp_awaiting_endpoint (fst m) = sse_awaiting_endpoint (fst s) ->
  TestMcpClient.session_id (snd m) = TestSse.SESSION_ID (snd s) ->
  TestMcpClient.endpoint_received (snd m) = TestSse.endpoint_event_received (snd s) ->
  TestMcpClient.connected (snd m) = TestSse.endpoint_event_received (snd s) ->
  let m' := TestMcpClient.process_lines json_loads lines m in
  let s' := TestSse.read_lines lines s in
  mcp_awaiting_endpoint (fst m') = sse_awaiting_endpoint (fst s')
  /\ TestMcpClient.session_id (snd m') = TestSse.SESSION_ID (snd s')
  /\ TestMcpClient.endpoint_received (snd m') = TestSse.endpoint_event_received (snd s')
  /\ TestMcpClient.connected (snd m') = TestSse.endpoint_event_received (snd s').
Proof.
  revert m s. induction lines as [|x xs IH]; intros m s Ha Hs He Hc; [cbn; auto|].
  destruct (readers_agree_step x m s Ha Hs He Hc) as (Ha' & Hs' & He' & Hc').
  exact (IH _ _ Ha' Hs' He' Hc').
Qed.

(** X2: on every stream the two test clients negotiate alike: after the
    same lines, [MCPClient.session_id] is the [SESSION_ID] of test-sse.py,
    and [connected], [endpoint_received] and [endpoint_event_received]
    are set or clear together. *)
Theorem readers_negotiate_alike (url : string) (lines : list string) :
  let m := TestMcpClient.process_sse json_loads lines (TestMcpClient.__init__ url) in
  let s := TestSse.read_sse lines TestSse.world0 in
  TestMcpClient.session_id m = TestSse.SESSION_ID s
  /\ TestMcpClient.connected m = TestSse.endpoint_event_received s
  /\ TestMcpClient.endpoint_received m = TestSse.endpoint_event_received s.
Proof.
  destruct (readers_agree_steps lines
              (TestMcpClient.locals0, TestMcpClient.__init__ url)
              (TestSse.locals0, TestSse.world0) eq_refl eq_refl eq_refl eq_refl)
    as (_ & Hs & He & Hc).
  repeat split; assumption.
Qed.

End ReadersAgree.

(** ** The endpoint format [<path>?sessionId=<id>] *)

Lemma split_go_no_sep sep cur s :
  PyStr.contains sep s = false -> PyStr.split_go sep 0 cur s = [cur +:+ s].
Proof.
  revert cur. induction s as [|c s IH]; intros cur H.
  - cbn. now rewrite str_app_nil_r.
  - cbn [PyStr.contains] in H. apply orb_false_elim in H as [Hp Hc].
    cbn [PyStr.split_go]. rewrite Hp, IH by exact Hc.
    now rewrite str_app_assoc.
Qed.

Lemma contains_app sub a b : PyStr.contains sub (a +:+ sub +:+ b) = true.
Proof.
  induction a as [|c a IH].
  - rewrite str_app_nil_l.
    destruct (sub +:+ b) eqn:E; cbn [PyStr.contains];
      rewrite <- E, prefix_app; reflexivity.
  - rewrite str_app_cons. cbn [PyStr.contains]. rewrite IH. apply orb_true_r.
Qed.

(** A path without ['?'] is passed over whole by the split. *)
Lemma split_go_path cur path rest :
  PyStr.contains "?" path = false ->
  PyStr.split_go session_sep 0 cur (path +:+ session_sep +:+ rest)
  = (cur +:+ path) :: PyStr.split_go session_sep 0 "" rest.
Proof.
  revert cur. induction path as [|c path IH]; intros cur H.
  - rewrite str_app_nil_l, str_app_nil_r.
    pose proof (prefix_app session_sep rest) as Hpre.
    change (session_sep +:+ rest) with (String "?" ("sessionId=" +:+ rest)) in *.
    cbn [PyStr.split_go]. rewrite Hpre. reflexivity.
  - cbn [PyStr.contains] in H. apply orb_false_elim in H as [Hp Hc].
    rewrite str_app_cons. cbn [PyStr.split_go].
    assert (Hne : String.prefix session_sep (String c (path +:+ session_sep +:+ rest)) = false).
    { unfold session_sep. cbn [String.prefix] in Hp |- *.
      destruct (ascii_dec "?" c); [|reflexivity].
      destruct path; discriminate Hp. }
    rewrite Hne, IH by exact Hc. now rewrite str_app_assoc.
Qed.

(** Taking the session id out of an endpoint undoes putting it in. *)
Lemma session_of_endpoint path sid :
  PyStr.contains "?" path = false ->
  PyStr.contains session_sep sid = false ->
  session_of (path +:+ session_sep +:+ sid) = sid
  /\ PyStr.contains session_sep (path +:+ session_sep +:+ sid) = true.
Proof.
  intros Hp Hs. split; [|apply contains_app].
  unfold session_of, PyStr.split.
  rewrite split_go_path, split_go_no_sep by assumption. reflexivity.
Qed.

Section EndpointFormat.

Variable json_loads : string -> option pyobj.

(** X3: the endpoint format round trip.  When the data of an endpoint
    frame is [path + '?sessionId=' + sid], with no ['?'] in [path] and no
    ['?sessionId='] in [sid], both readers store exactly [sid] as the
    session id, and [MCPClient] stores the whole data as
    [message_endpoint] and becomes connected. *)
Theorem endpoint_frame_round_trip
    (line path sid : string)
    (l : TestMcpClient.locals) (w : TestMcpClient.world)
    (l' : TestSse.locals) (w' : TestSse.world) :
  is_data_line line = true ->
  payload line = path +:+ session_sep +:+ sid ->
  PyStr.contains "?" path = false ->
  PyStr.contains session_sep sid = false ->
  mcp_awaiting_endpoint l = true ->
  sse_awaiting_endpoint l' = true ->
  let m := snd (TestMcpClient.process_line json_loads line (l, w)) in
  let s := snd (TestSse.read_line line (l', w')) in
  TestMcpClient.session_id m = Some sid
  /\ TestMcpClient.message_endpoint m = Some (path +:+ session_sep +:+ sid)
  /\ TestMcpClient.connected m = true
  /\ TestSse.SESSION_ID s = Some sid
  /\ TestSse.endpoint_event_received s = true.
Proof.
  intros Hd Hp Hpath Hsid Ha Ha'. cbv zeta.
  destruct (session_of_endpoint path sid Hpath Hsid) as [Hof Hin].
  rewrite (process_line_endpoint_data _ _ _ _ Hd Ha).
  rewrite (read_line_endpoint_data _ _ _ Hd Ha').
  cbv zeta. rewrite Hp, Hin, Hof. cbn. auto.
Qed.

End EndpointFormat.

(** X3 at the frame [event: endpoint], [data: /message?sessionId=xyz]. *)
Lemma endpoint_frame_round_trip_witness :
  let l := {| TestMcpClient.current_event := Some "endpoint"; TestMcpClient.event_data := "" |} in
  let l' := {| TestSse.current_event := Some "endpoint"; TestSse.event_data := "" |} in
  let line := "data: /message?sessionId=xyz" in
  (is_data_line line = true
   /\ payload line = "/message" +:+ session_sep +:+ "xyz"
   /\ PyStr.contains "?" "/message" = false
   /\ PyStr.contains session_sep "xyz" = false
   /\ mcp_awaiting_endpoint l = true
   /\ sse_awaiting_endpoint l' = true)
  /\ TestMcpClient.session_id
       (snd (TestMcpClient.process_line json_loads_lit line
               (l, TestMcpClient.__init__ "http://localhost:3005"))) = Some "xyz"
  /\ TestSse.SESSION_ID (snd (TestSse.read_line line (l', TestSse.world0))) = Some "xyz".
Proof.
  intros l l' line.
  pose proof (endpoint_frame_round_trip json_loads_lit line "/message" "xyz"
                l (TestMcpClient.__init__ "http://localhost:3005") l' TestSse.world0
                eq_refl eq_refl eq_refl eq_refl eq_refl eq_refl) as H.
  cbv zeta in H. destruct H as (H1 & _ & _ & H4 & _).
  split; [repeat split|]. split; [exact H1|exact H4].
Defined.

(** ** From the endpoint frame to the request *)

Lemma truthy_app_sep a b : PyStr.truthy (a +:+ session_sep +:+ b) = true.
Proof. destruct a; reflexivity. Qed.

Section Addressing.

Variable json_loads : string -> option pyobj.

(** Every call of the module-level [send_request] with a session id
    sends one POST, to [SERVER_URL + '/message?sessionId=' + id]. *)
Lemma sse_send_request_posts now post method params sid w :
  TestSse.posts (snd (TestSse.send_request json_loads now post method params (Some sid) w))
  = TestSse.posts w
    ++ [(TestSse.SERVER_URL +:+ "/message?sessionId=" +:+ sid,
         make_request (PyStr.str now) method (params_or_empty params))].
Proof.
  unfold TestSse.send_request. cbv zeta.
  destruct (post _ _) as [e|r]; [reflexivity|].
  destruct (negb _); [reflexivity|]. destruct (json_loads _); reflexivity.
Qed.

(** X4: where the requests go.  After an endpoint frame whose data is
    [path + '?sessionId=' + sid], where [path] contains no ['?'], and
    [sid] is not empty and contains no ['?sessionId='], [MCPClient]
    posts to [server_url + path + '?sessionId=' + sid], the address the
    server announced, while test-sse.py posts to
    [SERVER_URL + '/message?sessionId=' + sid] whatever the announced
    path was; both send the same JSON-RPC body, one POST each. *)
Theorem requests_follow_the_endpoint_frame
    (line path sid : string) (now : Z) (post : poster)
    (method : string) (params : option pyobj)
    (l : TestMcpClient.locals) (w : TestMcpClient.world)
    (l' : TestSse.locals) (w' : TestSse.world) :
  is_data_line line = true ->
  payload line = path +:+ session_sep +:+ sid ->
  PyStr.contains "?" path = false ->
  PyStr.contains session_sep sid = false ->
  PyStr.truthy sid = true ->
  mcp_awaiting_endpoint l = true ->
  sse_awaiting_endpoint l' = true ->
  let m := snd (TestMcpClient.process_line json_loads line (l, w)) in
  let s := snd (TestSse.read_line line (l', w')) in
  let body := make_request (PyStr.str now) method (params_or_empty params) in
  TestMcpClient.posts (snd (TestMcpClient.send_request json_loads now post method params m))
  = TestMcpClient.posts w
    ++ [(TestMcpClient.server_url w +:+ path +:+ session_sep +:+ sid, body)]
  /\ TestSse.posts
       (snd (TestSse.send_request json_loads now post method params (TestSse.SESSION_ID s) s))
     = TestSse.posts w'
       ++ [(TestSse.SERVER_URL +:+ "/message" +:+ session_sep +:+ sid, body)].
Proof.
  intros Hd Hp Hpath Hsid Ht Ha Ha'. cbv zeta.
  destruct (session_of_endpoint path sid Hpath Hsid) as [Hof Hin].
  rewrite (process_line_endpoint_data _ _ _ _ Hd Ha).
  rewrite (read_line_endpoint_data _ _ _ Hd Ha').
  cbv zeta. rewrite Hp, Hin, Hof. cbn [snd]. split.
  - match goal with
    | |- context [TestMcpClient.send_request _ _ _ _ _ ?m] =>
        assert (Hr : mcp_ready m = true)
          by (unfold mcp_ready; cbn; now rewrite truthy_app_sep, Ht);
        destruct (send_request_ready json_loads now post method params m Hr)
          as (ep & Hep & ->)
    end.
    cbn in Hep. injection Hep as <-. cbv zeta.
    destruct (post _ _) as [e|r]; [reflexivity|].
    destruct (negb _); [reflexivity|]. destruct (json_loads _); reflexivity.
  - cbn [TestSse.SESSION_ID TestSse.set_endpoint_event_received TestSse.print
         TestSse.set_SESSION_ID].
    rewrite sse_send_request_posts. reflexivity.
Qed.

(** X5: an endpoint frame with an empty session id (data
    [path + '?sessionId='], where [path] contains no ['?']) splits the
    two clients.  [MCPClient] becomes connected and sets the event, so
    [connect] succeeds, yet every [send_request] is refused because the
    empty id is falsy; test-sse.py only tests the id against [None] and
    posts to [SERVER_URL + '/message?sessionId=']. *)
Theorem empty_session_id_splits_the_clients
    (line path : string) (now : Z) (post : poster)
    (method : string) (params : option pyobj)
    (l : TestMcpClient.locals) (w : TestMcpClient.world)
    (l' : TestSse.locals) (w' : TestSse.world) :
  is_data_line line = true ->
  payload line = path +:+ session_sep ->
  PyStr.contains "?" path = false ->
  mcp_awaiting_endpoint l = true ->
  sse_awaiting_endpoint l' = true ->
  let m := snd (TestMcpClient.process_line json_loads line (l, w)) in
  let s := snd (TestSse.read_line line (l', w')) in
  (TestMcpClient.connected m = true
   /\ TestMcpClient.endpoint_received m = true
   /\ TestMcpClient.session_id m = Some ""
   /\ TestMcpClient.send_request json_loads now post method params m
      = (PyNone, TestMcpClient.print TestMcpClient.P_no_conexion m))
  /\ (TestSse.SESSION_ID s = Some ""
      /\ TestSse.endpoint_event_received s = true
      /\ TestSse.posts
           (snd (TestSse.send_request json_loads now post method params (TestSse.SESSION_ID s) s))
         = TestSse.posts w'
           ++ [(TestSse.SERVER_URL +:+ "/message?sessionId=",
                make_request (PyStr.str now) method (params_or_empty params))]).
Proof.
  intros Hd Hp Hpath Ha Ha'. cbv zeta.
  destruct (session_of_endpoint path "" Hpath eq_refl) as [Hof Hin].
  change (session_sep +:+ "") with session_sep in Hof, Hin.
  rewrite (process_line_endpoint_data _ _ _ _ Hd Ha).
  rewrite (read_line_endpoint_data _ _ _ Hd Ha').
  cbv zeta. rewrite Hp, Hin, Hof. cbn [snd]. split.
  - repeat split. apply send_request_not_ready.
    unfold mcp_ready. cbn. apply andb_false_r.
  - repeat split.
    cbn [TestSse.SESSION_ID TestSse.set_endpoint_event_received TestSse.print
         TestSse.set_SESSION_ID].
    rewrite sse_send_request_posts. reflexivity.
Qed.

End Addressing.

(** X4 at the frame [data: /mcp/messages?sessionId=xyz]. *)
Lemma requests_follow_the_endpoint_frame_witness :
  let l := {| TestMcpClient.current_event := Some "endpoint"; TestMcpClient.event_data := "" |} in
  let l' := {| TestSse.current_event := Some "endpoint"; TestSse.event_data := "" |} in
  let line := "data: /mcp/messages?sessionId=xyz" in
  let post : poster := fun _ _ => HttpReturns {| status_code := 200; text := "{}" |} in
  let m := snd (TestMcpClient.process_line json_loads_lit line
                  (l, TestMcpClient.__init__ "http://localhost:3005")) in
  (is_data_line line = true
   /\ payload line = "/mcp/messages" +:+ session_sep +:+ "xyz"
   /\ PyStr.contains "?" "/mcp/messages" = false
   /\ PyStr.contains session_sep "xyz" = false
   /\ PyStr.truthy "xyz" = true
   /\ mcp_awaiting_endpoint l = true
   /\ sse_awaiting_endpoint l' = true)
  /\ TestMcpClient.posts
       (snd (TestMcpClient.send_request json_loads_lit 1730000000 post "get-methods" None m))
     = [("http://localhost:3005/mcp/messages?sessionId=xyz",
         make_request "1730000000" "get-methods" (PyDict []))].
Proof.
  intros l l' line post m.
  pose proof (requests_follow_the_endpoint_frame json_loads_lit line "/mcp/messages" "xyz"
                1730000000 post "get-methods" None
                l (TestMcpClient.__init__ "http://localhost:3005") l' TestSse.world0
                eq_refl eq_refl eq_refl eq_refl eq_refl eq_refl eq_refl) as H.
  cbv zeta in H. destruct H as [H _].
  split; [repeat split|]. exact H.
Defined.

(** X5 at the frame [data: /message?sessionId=]. *)
Lemma empty_session_id_witness :
  let l := {| TestMcpClient.current_event := Some "endpoint"; TestMcpClient.event_data := "" |} in
  let l' := {| TestSse.current_event := Some "endpoint"; TestSse.event_data := "" |} in
  let line := "data: /message?sessionId=" in
  let post : poster := fun _ _ => HttpReturns {| status_code := 200; text := "{}" |} in
  let m := snd (TestMcpClient.process_line json_loads_lit line
                  (l, TestMcpClient.__init__ "http://localhost:3005")) in
  (is_data_line line = true
   /\ payload line = "/message" +:+ session_sep
   /\ PyStr.contains "?" "/message" = false
   /\ mcp_awaiting_endpoint l = true
   /\ sse_awaiting_endpoint l' = true)
  /\ TestMcpClient.connected m = true
  /\ fst (TestMcpClient.send_request json_loads_lit 1730000000 post "get-methods" None m)
     = PyNone.
Proof.
  intros l l' line post m.
  pose proof (empty_session_id_splits_the_clients json_loads_lit line "/message"
                1730000000 post "get-methods" None
                l (TestMcpClient.__init__ "http://localhost:3005") l' TestSse.world0
                eq_refl eq_refl eq_refl eq_refl eq_refl) as H.
  cbv zeta in H. destruct H as ((Hc & _ & _ & Hs) & _).
  split; [repeat split|]. split; [exact Hc|]. fold m in Hs. now rewrite Hs.
Defined.

(** ** More on the legacy client: callbacks, connecting, calling *)

Section LegacyMore.

Import Legacy.

Variable json_loads : string -> option pyobj.

(** Callbacks that return on [data] are passed; the loop goes on with
    the rest. *)
Lemma run_callbacks_app before rest data w :
  Forall (fun c => cb_body c data = None) before ->
  exists w1,
    run_callbacks (before ++ rest) data w = run_callbacks rest data w1
    /\ calls w1 = calls w ++ ((fun c => (cb_name c, data)) <$> before)
    /\ legacy_core w1 = legacy_core w /\ legacy_link w1 = legacy_link w
    /\ stdout w1 = stdout w.
Proof.
  revert w. induction before as [|c before IH]; intros w Hq.
  - exists w. cbn. now rewrite app_nil_r.
  - apply Forall_cons in Hq as [Hc Hq].
    destruct (IH (log_call (cb_name c) data w) Hq) as (w1 & E & Hcalls & Hcore & Hlink & Hout).
    exists w1. cbn [app run_callbacks]. rewrite Hc, E, Hcalls. cbn.
    rewrite <- app_assoc. auto.
Qed.

(** The loop ends without an exception exactly when every callback
    returns on [data]. *)
Lemma run_callbacks_result cbs data w :
  fst (run_callbacks cbs data w) = None <-> Forall (fun c => cb_body c data = None) cbs.
Proof.
  revert w. induction cbs as [|c cbs IH]; intros w; cbn [run_callbacks].
  - split; [constructor|reflexivity].
  - destruct (cb_body c data) as [e|] eqn:E.
    + split; [discriminate|]. intros H. apply Forall_cons in H as [H _]. congruence.
    + rewrite IH. split; [intros H; constructor; assumption|].
      intros H. now apply Forall_cons in H as [_ H].
Qed.

(** X6: [_trigger_event] calls the callbacks of an event in registration
    order and stops at the first one that raises: that exception
    propagates, and the callbacks registered after it are not called. *)
Theorem trigger_event_stops_at_first_raise
    (event : string) (data : cb_arg) (w : world)
    (before after : list callback) (cb : callback) (e : exn) :
  event_handlers w !! event = Some (before ++ cb :: after) ->
  Forall (fun c => cb_body c data = None) before ->
  cb_body cb data = Some e ->
  fst (_trigger_event event data w) = Some e
  /\ calls (snd (_trigger_event event data w))
     = calls w ++ ((fun c => (cb_name c, data)) <$> (before ++ [cb])).
Proof.
  intros Hh Hq He. unfold _trigger_event. rewrite Hh.
  destruct (run_callbacks_app before (cb :: after) data w Hq) as (w1 & -> & Hcalls & _).
  cbn [run_callbacks]. rewrite He. cbn. rewrite Hcalls, fmap_app, <- app_assoc. auto.
Qed.

Lemma legacy_core_handlers w w' :
  legacy_core w' = legacy_core w -> event_handlers w' = event_handlers w.
Proof. unfold legacy_core. intros H. exact (f_equal snd H). Qed.

(** No action removes or adds a key of the handler table. *)
Lemma handlers_dom_step w a :
  dom (event_handlers (legacy_step json_loads w a)) = dom (event_handlers w).
Proof.
  destruct a as [get|events fin|event cb|post method params|]; cbn [legacy_step].
  - destruct (connect_frame get w) as [H _]. now rewrite (legacy_core_handlers _ _ H).
  - destruct (process_events_frame json_loads events fin w) as [H _].
    now rewrite (legacy_core_handlers _ _ H).
  - unfold on. destruct (event_handlers w !! event) as [cbs|] eqn:E; [|reflexivity].
    cbn. rewrite dom_insert_L. apply (elem_of_dom_2 (D := gset string)) in E.
    apply subseteq_union_1_L, singleton_subseteq_l, E.
  - unfold execute_method. destruct (negb (connected w)); [reflexivity|].
    cbv zeta. destruct (post _ _) as [e|r]; [reflexivity|].
    destruct (json_loads _); reflexivity.
  - destruct (disconnect_frame w) as [H _]. now rewrite (legacy_core_handlers _ _ H).
Qed.

Lemma handlers_dom_run actions w :
  dom (event_handlers (legacy_run json_loads actions w)) = dom (event_handlers w).
Proof.
  revert w. induction actions as [|a actions IH]; intros w; [reflexivity|].
  cbn [legacy_run fold_left]. fold (legacy_run json_loads actions (legacy_step json_loads w a)).
  now rewrite IH, handlers_dom_step.
Qed.

(** X7: the handler table of the legacy client always has exactly the
    keys ['message'], ['error'] and ['open'].  [on] appends the callback
    at the end of the list of one of these events and leaves the other
    lists alone; for any other event name it changes nothing, silently. *)
Theorem on_registers_known_events_only
    (url : string) (rng : nat -> nat) (actions : list legacy_action)
    (event : string) (cb : callback) :
  let w := legacy_run json_loads actions (__init__ url rng) in
  dom (event_handlers w) = ({["message"; "error"; "open"]} : gset string)
  /\ (event ∉ ({["message"; "error"; "open"]} : gset string) -> on event cb w = w)
  /\ (event ∈ ({["message"; "error"; "open"]} : gset string) ->
      exists cbs,
        event_handlers w !! event = Some cbs
        /\ event_handlers (on event cb w) !! event = Some (cbs ++ [cb])
        /\ forall other, other <> event ->
             event_handlers (on event cb w) !! other = event_handlers w !! other).
Proof.
  intros w.
  assert (Hdom : dom (event_handlers w) = ({["message"; "error"; "open"]} : gset string)).
  { unfold w. rewrite handlers_dom_run. cbn [__init__ event_handlers].
    rewrite !dom_insert_L, dom_empty_L. set_solver. }
  split; [exact Hdom|]. split.
  - intros Hn. rewrite <- Hdom in Hn. apply not_elem_of_dom in Hn.
    unfold on. now rewrite Hn.
  - intros Hin. rewrite <- Hdom in Hin. apply elem_of_dom in Hin as [cbs Hcbs].
    exists cbs. split; [exact Hcbs|]. unfold on. rewrite Hcbs. cbn. split.
    + apply lookup_insert_eq.
    + intros other Hne. now apply lookup_insert_ne.
Qed.

(** X8: [connect] sets [connected] and keeps the [SSEClient] as soon as
    the GET returns, whatever the status and before the ['open']
    callbacks run; it returns [True] exactly when none of them raises.
    So a [connect] that did not return [True] because an ['open']
    callback raised leaves the client connected.  When the GET itself
    raises, the connection state is left as it was and [connect] does not
    return [True]. *)
Theorem connect_sets_connected_before_callbacks
    (r : response) (e : exn) (w : world) (opens : list callback) :
  event_handlers w !! "open" = Some opens ->
  (connected (snd (connect (HttpReturns r) w)) = true
   /\ sse_client (snd (connect (HttpReturns r) w)) = Some r
   /\ (fst (connect (HttpReturns r) w) = Returns true
       <-> Forall (fun c => cb_body c (ArgObj PyNone) = None) opens))
  /\ (connected (snd (connect (HttpRaises e) w)) = connected w
      /\ sse_client (snd (connect (HttpRaises e) w)) = sse_client w
      /\ fst (connect (HttpRaises e) w) <> Returns true).
Proof.
  intros Hopen. split.
  - destruct (connect_frame (HttpReturns r) w) as [_ Hl].
    unfold legacy_link in Hl. injection Hl as Hc Hs.
    split; [exact Hc|]. split; [exact Hs|].
    unfold connect, _trigger_event. cbv zeta.
    cbn [print set_connected set_sse_client event_handlers]. rewrite Hopen.
    match goal with
    | |- context [run_callbacks opens ?a ?s] =>
        pose proof (run_callbacks_result opens a s) as Hres;
        destruct (run_callbacks opens a s) as [[x|] w1]
    end; cbn [fst] in *.
    + split.
      * destruct (event_handlers _ !! "error") as [errs|];
          [destruct (run_callbacks errs _ _) as [[y|] w2]|]; discriminate.
      * intros H. apply Hres in H. discriminate H.
    + split; [intros _; now apply Hres|reflexivity].
  - destruct (connect_frame (HttpRaises e) w) as [_ Hl].
    apply legacy_link_fields in Hl as [Hc Hs].
    split; [exact Hc|]. split; [exact Hs|].
    unfold connect. cbv zeta.
    destruct (_trigger_event "error" _ _) as [[y|] w2]; discriminate.
Qed.

(** X9: [disconnect] is idempotent and does nothing on a client that
    holds no [SSEClient]; a later [connect] keeps the session id, the
    request counter and the POST log, so request ids go on after a
    reconnect instead of starting again at 1. *)
Theorem disconnect_is_idempotent_reconnect_keeps_counter
    (get : http_result) (w : world) :
  disconnect (disconnect w) = disconnect w
  /\ (sse_client w = None -> disconnect w = w)
  /\ (let w' := snd (connect get (disconnect w)) in
      session_id w' = session_id w /\ request_id w' = request_id w
      /\ server_url w' = server_url w /\ posts w' = posts w).
Proof.
  split; [|split].
  - unfold disconnect. destruct (sse_client w) eqn:E; cbn; [reflexivity|now rewrite E].
  - unfold disconnect. now intros ->.
  - cbv zeta.
    destruct (connect_frame get (disconnect w)) as [Hc _].
    destruct (disconnect_frame w) as [Hd _]. rewrite Hd in Hc.
    apply legacy_core_fields in Hc as (-> & -> & -> & ->). auto.
Qed.

(** X10: [execute_method] does not look at the HTTP status: whatever
    the status, a body that is JSON is returned as the result.  The
    request counter has moved on by one when the call ends, also when
    the POST raised. *)
Theorem execute_method_ignores_status
    (r : response) (v : pyobj) (e : exn)
    (method : string) (params : option pyobj) (w : world) :
  connected w = true ->
  json_loads (text r) = Some v ->
  let ok := execute_method json_loads (fun _ _ => HttpReturns r) method params w in
  let ko := execute_method json_loads (fun _ _ => HttpRaises e) method params w in
  fst ok = Returns v
  /\ last (stdout (snd ok)) = Some (P_respuesta v)
  /\ request_id (snd ok) = (request_id w + 1)%Z
  /\ fst ko = Raises e
  /\ request_id (snd ko) = (request_id w + 1)%Z
  /\ length (posts (snd ko)) = S (length (posts w)).
Proof.
  intros Hc Hj. unfold execute_method. rewrite Hc. cbn [negb]. cbv zeta.
  rewrite Hj. cbn. rewrite last_snoc, length_app. cbn.
  repeat split; try reflexivity. lia.
Qed.

(** The state after the events of a stream, when no message callback
    raises. *)
Lemma process_events_quiet_state cbs events w :
  event_handlers w !! "message" = Some cbs ->
  Forall (fun cb => forall x, cb_body cb x = None) cbs ->
  exists w1,
    (forall fin, _process_events json_loads events fin w
                 = match fin with None => w1 | Some e => events_failed e w1 end)
    /\ calls w1
       = calls w
         ++ mjoin ((fun ev => (fun cb => (cb_name cb, ArgObj (decoded_data json_loads ev)))
                              <$> cbs) <$> events)
    /\ legacy_core w1 = legacy_core w /\ legacy_link w1 = legacy_link w.
Proof.
  intros Hh Hq. revert w Hh. induction events as [|ev rest IH]; intros w Hh.
  - exists w. cbn. rewrite app_nil_r. auto.
  - assert (Hstep : exists w0,
               process_event json_loads ev w = (None, w0)
               /\ calls w0 = calls w ++ ((fun cb => (cb_name cb, ArgObj (decoded_data json_loads ev))) <$> cbs)
               /\ legacy_core w0 = legacy_core w /\ legacy_link w0 = legacy_link w).
    { unfold process_event, decoded_data, _trigger_event.
      destruct (json_loads (ev_data ev)) as [v|];
        cbn [print event_handlers]; rewrite Hh;
        match goal with
        | |- context [run_callbacks cbs ?a ?s] =>
            destruct (run_callbacks_app cbs [] a s) as (w0 & E & Hc & Hcore & Hlink & _);
              [eapply Forall_impl; [exact Hq|]; cbn; auto|];
            rewrite app_nil_r in E; rewrite E; cbn [run_callbacks];
            exists w0; repeat split; assumption
        end. }
    destruct Hstep as (w0 & E & Hc0 & Hcore0 & Hlink0).
    assert (Hh0 : event_handlers w0 !! "message" = Some cbs).
    { now rewrite (legacy_core_handlers _ _ Hcore0). }
    destruct (IH w0 Hh0) as (w1 & Hrun & Hc1 & Hcore1 & Hlink1).
    exists w1. split; [|split; [|split]].
    + intros fin. cbn [_process_events]. rewrite E. apply Hrun.
    + rewrite Hc1, Hc0. cbn. now rewrite <- app_assoc.
    + now rewrite Hcore1.
    + now rewrite Hlink1.
Qed.

(** X11: how a stream ends.  With callbacks that do not raise, when the
    stream fails after some events the reader clears [connected], keeps
    the [SSEClient] (only [disconnect] drops it) and passes the
    exception to the ['error'] callbacks, after the messages of the
    events read before the failure.  When the stream just ends, nothing
    is reported: [connected] stays as it was. *)
Theorem stream_failure_clears_connected
    (events : list sse_event) (e : exn) (w : world) (cbs errs : list callback) :
  event_handlers w !! "message" = Some cbs ->
  event_handlers w !! "error" = Some errs ->
  Forall (fun cb => forall x, cb_body cb x = None) cbs ->
  Forall (fun cb => forall x, cb_body cb x = None) errs ->
  let failed := _process_events json_loads events (Some e) w in
  let ended := _process_events json_loads events None w in
  connected failed = false
  /\ sse_client failed = sse_client w
  /\ calls failed = calls ended ++ ((fun cb => (cb_name cb, ArgExn e)) <$> errs)
  /\ connected ended = connected w
  /\ sse_client ended = sse_client w.
Proof.
  intros Hm Herr Hqm Hqe. cbv zeta.
  destruct (process_events_quiet_state cbs events w Hm Hqm) as (w1 & Hrun & _ & Hcore & Hlink).
  rewrite (Hrun (Some e)), (Hrun None).
  destruct (events_failed_frame e w1) as [_ Hl].
  apply legacy_link_fields in Hlink as [Hc1 Hs1].
  unfold legacy_link in Hl. injection Hl as Hc Hs.
  split; [exact Hc|]. split; [now rewrite Hs|]. split; [|auto].
  unfold events_failed, _trigger_event.
  cbn [print set_connected event_handlers].
  assert (Herr1 : event_handlers w1 !! "error" = Some errs).
  { now rewrite (legacy_core_handlers _ _ Hcore). }
  rewrite Herr1.
  match goal with
  | |- context [run_callbacks errs ?a ?s] =>
      destruct (run_callbacks_quiet errs a s Hqe) as (_ & -> & _)
  end.
  reflexivity.
Qed.

End LegacyMore.

(** X6 with three message callbacks, the second of which raises. *)
Lemma trigger_event_stops_witness :
  let quiet := {| Legacy.cb_name := "first"; Legacy.cb_body := fun _ => None |} in
  let loud := {| Legacy.cb_name := "second";
                 Legacy.cb_body := fun _ => Some (Exception "boom") |} in
  let late := {| Legacy.cb_name := "third"; Legacy.cb_body := fun _ => None |} in
  let w := Legacy.on "message" late
             (Legacy.on "message" loud
                (Legacy.on "message" quiet
                   (Legacy.__init__ "http://localhost:3003" (fun i => i)))) in
  let data := Legacy.ArgObj (PyStr "hello") in
  (Legacy.event_handlers w !! "message" = Some ([quiet] ++ loud :: [late])
   /\ Forall (fun c => Legacy.cb_body c data = None) [quiet]
   /\ Legacy.cb_body loud data = Some (Exception "boom"))
  /\ fst (Legacy._trigger_event "message" data w) = Some (Exception "boom")
  /\ Legacy.calls (snd (Legacy._trigger_event "message" data w))
     = [("first", data); ("second", data)].
Proof.
  intros quiet loud late w data.
  assert (Hq : Forall (fun c => Legacy.cb_body c data = None) [quiet])
    by (repeat constructor).
  split; [split; [reflexivity|split; [exact Hq|reflexivity]]|].
  exact (trigger_event_stops_at_first_raise "message" data w [quiet] [late] loud
           (Exception "boom") eq_refl Hq eq_refl).
Defined.

(** X8 with an ['open'] callback that raises: [connect] does not return
    [True], and the client is connected. *)
Lemma connect_sets_connected_witness :
  let bad := {| Legacy.cb_name := "on_open";
                Legacy.cb_body := fun _ => Some (Exception "boom") |} in
  let w := Legacy.on "open" bad (Legacy.__init__ "http://localhost:3003" (fun i => i)) in
  let r := {| status_code := 200; text := "" |} in
  Legacy.event_handlers w !! "open" = Some [bad]
  /\ Legacy.connected (snd (Legacy.connect (HttpReturns r) w)) = true
  /\ fst (Legacy.connect (HttpReturns r) w) <> Returns true.
Proof.
  intros bad w r.
  pose proof (connect_sets_connected_before_callbacks r (Exception "refused") w [bad]
                eq_refl) as ((Hc & _ & Hiff) & _).
  split; [reflexivity|]. split; [exact Hc|].
  intros H. apply Hiff in H. apply Forall_cons in H as [H _]. discriminate H.
Defined.

(** X10 with a 500 response whose body is [{}]. *)
Lemma execute_method_ignores_status_witness :
  let w := snd (Legacy.connect (HttpReturns {| status_code := 200; text := "" |})
                  (Legacy.__init__ "http://localhost:3003" (fun i => i))) in
  let r := {| status_code := 500; text := "{}" |} in
  (Legacy.connected w = true /\ json_loads_lit (text r) = Some (PyDict []))
  /\ fst (Legacy.execute_method json_loads_lit (fun _ _ => HttpReturns r) "list-tables" None w)
     = Returns (PyDict []).
Proof.
  intros w r.
  pose proof (execute_method_ignores_status json_loads_lit r (PyDict []) (Exception "refused")
                "list-tables" None w eq_refl eq_refl) as H.
  cbv zeta in H. destruct H as (H & _).
  split; [split; reflexivity|exact H].
Defined.

(** X11 with one message callback and one error callback, on a stream
    that yields one event and then fails. *)
Lemma stream_failure_witness :
  let on_message := {| Legacy.cb_name := "on_message"; Legacy.cb_body := fun _ => None |} in
  let on_error := {| Legacy.cb_name := "on_error"; Legacy.cb_body := fun _ => None |} in
  let w := snd (Legacy.connect (HttpReturns {| status_code := 200; text := "" |})
                  (Legacy.on "error" on_error
                     (Legacy.on "message" on_message
                        (Legacy.__init__ "http://localhost:3003" (fun i => i))))) in
  let events := [{| Legacy.ev_event := "message"; Legacy.ev_data := "{}" |}] in
  let e := Exception "Connection broken" in
  (Legacy.event_handlers w !! "message" = Some [on_message]
   /\ Legacy.event_handlers w !! "error" = Some [on_error]
   /\ Forall (fun cb => forall x, Legacy.cb_body cb x = None) [on_message]
   /\ Forall (fun cb => forall x, Legacy.cb_body cb x = None) [on_error])
  /\ Legacy.connected w = true
  /\ Legacy.connected (Legacy._process_events json_loads_lit events (Some e) w) = false.
Proof.
  intros on_message on_error w events e.
  assert (Hm : Forall (fun cb => forall x, Legacy.cb_body cb x = None) [on_message])
    by (repeat constructor).
  assert (He : Forall (fun cb => forall x, Legacy.cb_body cb x = None) [on_error])
    by (repeat constructor).
  pose proof (stream_failure_clears_connected json_loads_lit events e w
                [on_message] [on_error] eq_refl eq_refl Hm He) as H.
  cbv zeta in H. destruct H as (H & _).
  split; [repeat split; assumption|]. split; [reflexivity|exact H].
Defined.

(** ** More on [MCPClient]: connecting and the successful call *)

Section McpMore.

Variable json_loads : string -> option pyobj.

(** The event of [connect] is only set together with the session. *)
Lemma event_implies_session_step line st :
  (TestMcpClient.endpoint_received (snd st) = true ->
   TestMcpClient.connected (snd st) = true
   /\ is_Some (TestMcpClient.session_id (snd st))
   /\ is_Some (TestMcpClient.message_endpoint (snd st))) ->
  let st' := TestMcpClient.process_line json_loads line st in
  TestMcpClient.endpoint_received (snd st') = true ->
  TestMcpClient.connected (snd st') = true
  /\ is_Some (TestMcpClient.session_id (snd st'))
  /\ is_Some (TestMcpClient.message_endpoint (snd st')).
Proof.
  destruct st as [l w]. cbn [snd]. intros Inv. cbv zeta.
  destruct (is_data_line line && mcp_awaiting_endpoint l) eqn:E.
  - apply andb_prop in E as [Hd Ha].
    rewrite (process_line_endpoint_data _ _ _ _ Hd Ha). cbn.
    destruct (PyStr.contains _ _); cbn; [eauto|].
    intros He. destruct (Inv He) as (Hc & Hs & _). eauto.
  - destruct (process_line_other json_loads line l w E) as (-> & -> & -> & ->).
    exact Inv.
Qed.

Lemma event_implies_session_steps lines st :
  (TestMcpClient.endpoint_received (snd st) = true ->
   TestMcpClient.connected (snd st) = true
   /\ is_Some (TestMcpClient.session_id (snd st))
   /\ is_Some (TestMcpClient.message_endpoint (snd st))) ->
  let st' := TestMcpClient.process_lines json_loads lines st in
  TestMcpClient.endpoint_received (snd st') = true ->
  TestMcpClient.connected (snd st') = true
  /\ is_Some (TestMcpClient.session_id (snd st'))
  /\ is_Some (TestMcpClient.message_endpoint (snd st')).
Proof.
  revert st. induction lines as [|x xs IH]; intros st Inv; [exact Inv|].
  apply (IH (TestMcpClient.process_line json_loads x st)).
  apply event_implies_session_step, Inv.
Qed.


(** X13: the successful call.  When the client is ready and the POST
    answers 200 with a JSON body, [send_request] returns the decoded
    body after one POST and prints no error: the last line printed is
    the status code.  A body [null] therefore gives [None], the value of
    every failure, on a call that succeeded.  The [send_request] of
    test-sse.py does the same when it is given a session id. *)
Theorem mcp_send_request_returns_decoded_body
    (now : Z) (method : string) (params : option pyobj)
    (w : TestMcpClient.world) (sid : string) (sw : TestSse.world)
    (r : response) (v : pyobj) :
  mcp_ready w = true ->
  status_code r = 200%Z ->
  json_loads (text r) = Some v ->
  let res := TestMcpClient.send_request json_loads now (fun _ _ => HttpReturns r)
               method params w in
  let res' := TestSse.send_request json_loads now (fun _ _ => HttpReturns r)
                method params (Some sid) sw in
  (fst res = v
   /\ last (TestMcpClient.stdout (snd res)) = Some (TestMcpClient.P_codigo 200)
   /\ length (TestMcpClient.posts (snd res)) = S (length (TestMcpClient.posts w))
   /\ posted_ids (TestMcpClient.posts (snd res))
      = posted_ids (TestMcpClient.posts w) ++ [PyStr.str now])
  /\ (fst res' = v
      /\ last (TestSse.stdout (snd res')) = Some (TestSse.P_codigo 200)
      /\ length (TestSse.posts (snd res')) = S (length (TestSse.posts sw))).
Proof.
  intros Hr Hs Hj. cbv zeta. split.
  - destruct (send_request_ready json_loads now (fun _ _ => HttpReturns r) method params w Hr)
      as (ep & _ & ->).
    cbv zeta. rewrite Hs, Hj. cbn. rewrite last_snoc, length_app, posted_ids_snoc. cbn.
    repeat split; try reflexivity. lia.
  - unfold TestSse.send_request. cbv zeta. rewrite Hs, Hj. cbn.
    rewrite last_snoc, length_app. cbn. repeat split; try reflexivity. lia.
Qed.

End McpMore.


(** X13 at a ready client whose POST is answered by the body [null]. *)
Lemma mcp_send_request_null_witness :
  let ready := TestMcpClient.process_sse json_loads_lit
                 ["event: endpoint"; "data: /message?sessionId=xyz"]
                 (TestMcpClient.__init__ "http://localhost:3005") in
  let r := {| status_code := 200; text := "null" |} in
  (mcp_ready ready = true /\ status_code r = 200%Z /\ json_loads_lit (text r) = Some PyNone)
  /\ fst (TestMcpClient.send_request json_loads_lit 1730000000 (fun _ _ => HttpReturns r)
            "get-methods" None ready) = PyNone
  /\ last (TestMcpClient.stdout
             (snd (TestMcpClient.send_request json_loads_lit 1730000000
                     (fun _ _ => HttpReturns r) "get-methods" None ready)))
     = Some (TestMcpClient.P_codigo 200).
Proof.
  intros ready r.
  pose proof (mcp_send_request_returns_decoded_body json_loads_lit 1730000000
                "get-methods" None ready "xyz" TestSse.world0 r PyNone
                eq_refl eq_refl eq_refl) as H.
  cbv zeta in H. destruct H as ((H1 & H2 & _) & _).
  split; [repeat split|]. split; [exact H1|exact H2].
Defined.

(** ** Closing, and waiting for the event in test-sse.py *)

Section CloseAndWait.

Variable json_loads : string -> option pyobj.

(** The reader never touches the GET response. *)
Lemma process_line_sse_response line st :
  TestMcpClient.sse_response (snd (TestMcpClient.process_line json_loads line st))
  = TestMcpClient.sse_response (snd st).
Proof.
  destruct st as [l w]. unfold TestMcpClient.process_line.
  destruct (PyStr.truthy line); [|reflexivity]. cbn [negb].
  destruct (PyStr.startswith line "event:"); [reflexivity|].
  destruct (PyStr.startswith line "data:"); [|reflexivity].
  destruct (TestMcpClient.current_event l) as [ev|].
  - destruct (String.eqb ev "endpoint").
    + cbv zeta. destruct (PyStr.contains _ _); reflexivity.
    + destruct (PyStr.truthy ev); destruct (json_loads _); try reflexivity.
      destruct (PyStr.truthy _); reflexivity.
  - destruct (json_loads _); [reflexivity|]. destruct (PyStr.truthy _); reflexivity.
Qed.

Lemma process_lines_sse_response lines st :
  TestMcpClient.sse_response (snd (TestMcpClient.process_lines json_loads lines st))
  = TestMcpClient.sse_response (snd st).
Proof.
  revert st. induction lines as [|x xs IH]; intros st; [reflexivity|].
  cbn [TestMcpClient.process_lines fold_left].
  fold (TestMcpClient.process_lines json_loads xs (TestMcpClient.process_line json_loads x st)).
  now rewrite IH, process_line_sse_response.
Qed.

(** X14: [connect] keeps the GET response whatever its status, and
    [close] closes it only if the response is truthy, that is if its
    status is not between 400 and 599.  After a [connect] that failed on
    such a status, [close] leaves the stream open; in every case it
    clears [connected]. *)
Theorem close_skips_error_responses
    (r : response) (lines : list string) (w : TestMcpClient.world) :
  let w1 := snd (snd (TestMcpClient.connect json_loads (HttpReturns r) lines w)) in
  TestMcpClient.sse_response (TestMcpClient.close w1)
  = Some {| TestMcpClient.sse_status := status_code r;
            TestMcpClient.sse_closed := TestMcpClient.response_ok (status_code r) |}
  /\ TestMcpClient.connected (TestMcpClient.close w1) = false.
Proof.
  cbv zeta.
  assert (Hresp : TestMcpClient.sse_response
                    (snd (snd (TestMcpClient.connect json_loads (HttpReturns r) lines w)))
                  = Some {| TestMcpClient.sse_status := status_code r;
                            TestMcpClient.sse_closed := false |}).
  { unfold TestMcpClient.connect. cbv zeta.
    destruct (negb (Z.eqb (status_code r) 200)); [reflexivity|].
    match goal with
    | |- context [TestMcpClient.process_lines json_loads lines ?s] =>
        pose proof (process_lines_sse_response lines s) as H;
        destruct (TestMcpClient.process_lines json_loads lines s) as [l1 w1]
    end.
    cbn [snd] in H. destruct (TestMcpClient.endpoint_received w1); cbn; rewrite H; reflexivity. }
  set (w1 := snd (snd (TestMcpClient.connect json_loads (HttpReturns r) lines w))) in *.
  clearbody w1. unfold TestMcpClient.close. rewrite Hresp. cbn.
  destruct (TestMcpClient.response_ok (status_code r)) eqn:E; cbn; [auto|].
  now rewrite Hresp.
Qed.

(** X15: in test-sse.py the event is set only after [SESSION_ID] has
    been assigned.  So when the event is set, [SESSION_ID] holds a
    string, and a [send_request] that is passed it does send its POST,
    to [SERVER_URL + '/message?sessionId=' +] that id. *)
Theorem sse_event_implies_session_id
    (lines : list string) (now : Z) (post : poster)
    (method : string) (params : option pyobj) :
  let s := TestSse.read_sse lines TestSse.world0 in
  TestSse.endpoint_event_received s = true ->
  exists sid,
    TestSse.SESSION_ID s = Some sid
    /\ TestSse.posts
         (snd (TestSse.send_request json_loads now post method params (TestSse.SESSION_ID s) s))
       = TestSse.posts s
         ++ [(TestSse.SERVER_URL +:+ "/message?sessionId=" +:+ sid,
              make_request (PyStr.str now) method (params_or_empty params))].
Proof.
  intros s He.
  destruct (readers_agree_steps json_loads lines
              (TestMcpClient.locals0, TestMcpClient.__init__ "")
              (TestSse.locals0, TestSse.world0) eq_refl eq_refl eq_refl eq_refl)
    as (_ & Hs & Hev & _).
  pose proof (event_implies_session_steps json_loads lines
                (TestMcpClient.locals0, TestMcpClient.__init__ "")
                ltac:(cbn; discriminate)) as Hinv.
  cbv zeta in Hinv, Hs, Hev. fold (TestSse.read_sse lines TestSse.world0) in Hs, Hev.
  fold s in Hs, Hev. rewrite Hev in Hinv.
  destruct (Hinv He) as (_ & [sid Hsid] & _). rewrite Hs in Hsid.
  exists sid. split; [exact Hsid|]. rewrite Hsid. apply sse_send_request_posts.
Qed.

End CloseAndWait.

(** X15 on the stream of an endpoint frame. *)
Lemma sse_event_implies_session_id_witness :
  let lines := ["event: endpoint"; "data: /message?sessionId=xyz"; ""] in
  let s := TestSse.read_sse lines TestSse.world0 in
  let post : poster := fun _ _ => HttpReturns {| status_code := 200; text := "{}" |} in
  TestSse.endpoint_event_received s = true
  /\ exists sid,
       TestSse.SESSION_ID s = Some sid
       /\ TestSse.posts
            (snd (TestSse.send_request json_loads_lit 1730000000 post "get-methods" None
                    (TestSse.SESSION_ID s) s))
          = TestSse.posts s
            ++ [(TestSse.SERVER_URL +:+ "/message?sessionId=" +:+ sid,
                 make_request (PyStr.str 1730000000) "get-methods" (params_or_empty None))].
Proof.
  intros lines s post. split; [reflexivity|].
  exact (sse_event_implies_session_id json_loads_lit lines 1730000000 post
           "get-methods" None eq_refl).
Defined.

(** ** A later endpoint frame, and the connection invariant of the legacy client *)

Section LaterEndpoint.

Variable json_loads : string -> option pyobj.

(** X16: [send_request] addresses [server_url + message_endpoint]; the
    attribute [session_id] is tested by the guard and never sent.  So
    when a ready client reads another endpoint frame whose data is not
    empty and has no ['?sessionId='], the next request goes to
    [server_url +] that data, an address without session id, while
    [session_id] still holds the old id. *)
Theorem endpoint_without_session_redirects_requests
    (line : string) (now : Z) (post : poster) (method : string) (params : option pyobj)
    (l : TestMcpClient.locals) (w : TestMcpClient.world) :
  mcp_ready w = true ->
  is_data_line line = true ->
  mcp_awaiting_endpoint l = true ->
  PyStr.contains session_sep (payload line) = false ->
  PyStr.truthy (payload line) = true ->
  let m := snd (TestMcpClient.process_line json_loads line (l, w)) in
  TestMcpClient.session_id m = TestMcpClient.session_id w
  /\ TestMcpClient.posts (snd (TestMcpClient.send_request json_loads now post method params m))
     = TestMcpClient.posts w
       ++ [(TestMcpClient.server_url w +:+ payload line,
            make_request (PyStr.str now) method (params_or_empty params))].
Proof.
  intros Hr Hd Ha Hin Ht. cbv zeta.
  rewrite (process_line_endpoint_data _ _ _ _ Hd Ha). cbv zeta. rewrite Hin. cbn [snd].
  split; [reflexivity|].
  match goal with
  | |- context [TestMcpClient.send_request _ _ _ _ _ ?m] =>
      assert (Hr' : mcp_ready m = true)
  end.
  { unfold mcp_ready in Hr |- *.
    apply andb_prop in Hr as [Hr Hs]. apply andb_prop in Hr as [Hc _].
    cbn [TestMcpClient.connected TestMcpClient.message_endpoint TestMcpClient.session_id
         TestMcpClient.set_message_endpoint TestMcpClient.print PyStr.truthy_opt].
    now rewrite Hc, Ht, Hs. }
  destruct (send_request_ready json_loads now post method params _ Hr') as (ep & Hep & ->).
  cbn in Hep. injection Hep as <-. cbv zeta.
  destruct (post _ _) as [e|r]; [reflexivity|].
  destruct (negb _); [reflexivity|]. destruct (json_loads _); reflexivity.
Qed.

(** X17: in every state a legacy client reaches, [connected] implies
    that an [SSEClient] is held; hence [disconnect] always leaves the
    client not connected and without [SSEClient]. *)
Theorem legacy_connected_holds_sse_client
    (url : string) (rng : nat -> nat) (actions : list legacy_action) :
  let w := legacy_run json_loads actions (Legacy.__init__ url rng) in
  (Legacy.connected w = true -> is_Some (Legacy.sse_client w))
  /\ Legacy.connected (Legacy.disconnect w) = false
  /\ Legacy.sse_client (Legacy.disconnect w) = None.
Proof.
  intros w.
  destruct (legacy_inv_run json_loads url rng actions _ (legacy_inv_init url rng))
    as (_ & _ & _ & _ & _ & I6).
  fold w in I6. split; [exact I6|].
  unfold Legacy.disconnect. destruct (Legacy.sse_client w) eqn:Es; cbn; [auto|].
  split; [|exact Es].
  destruct (Legacy.connected w); [|reflexivity].
  destruct (I6 eq_refl) as [x Hx]. discriminate Hx.
Qed.

End LaterEndpoint.

(** X16 at a ready client that reads [event: endpoint], [data: /other]. *)
Lemma endpoint_without_session_witness :
  let st := TestMcpClient.process_lines json_loads_lit
              ["event: endpoint"; "data: /message?sessionId=xyz"; "event: endpoint"]
              (TestMcpClient.locals0, TestMcpClient.__init__ "http://localhost:3005") in
  let line := "data: /other" in
  let post : poster := fun _ _ => HttpReturns {| status_code := 200; text := "{}" |} in
  let m := snd (TestMcpClient.process_line json_loads_lit line st) in
  (mcp_ready (snd st) = true
   /\ is_data_line line = true
   /\ mcp_awaiting_endpoint (fst st) = true
   /\ PyStr.contains session_sep (payload line) = false
   /\ PyStr.truthy (payload line) = true)
  /\ TestMcpClient.session_id m = Some "xyz"
  /\ TestMcpClient.posts
       (snd (TestMcpClient.send_request json_loads_lit 1730000000 post "list-tables" None m))
     = [("http://localhost:3005/other",
         make_request "1730000000" "list-tables" (PyDict []))].
Proof.
  intros st line post m.
  pose proof (endpoint_without_session_redirects_requests json_loads_lit line
                1730000000 post "list-tables" None (fst st) (snd st)
                eq_refl eq_refl eq_refl eq_refl eq_refl) as H.
  cbv zeta in H. destruct H as [Hs Hp].
  split; [repeat split|]. split; [exact Hs|exact Hp].
Defined.

(** ** The endpoint frame and the readiness of a call, client by client
       (claims C3, C5) *)


Section PerClient.

Variable json_loads : string -> option pyobj.

(** What [MCPClient.send_request] logs when its guard passes: one POST,
    to [server_url + message_endpoint]. *)
Lemma mcp_send_request_posts now post method params w ep :
  mcp_ready w = true ->
  TestMcpClient.message_endpoint w = Some ep ->
  TestMcpClient.posts
    (snd (TestMcpClient.send_request json_loads now post method params w))
  = TestMcpClient.posts w
    ++ [(TestMcpClient.server_url w +:+ ep,
         make_request (PyStr.str now) method (params_or_empty params))].
Proof.
  intros Hr Hep.
  destruct (send_request_ready json_loads now post method params w Hr)
    as (ep' & Hep' & ->).
  rewrite Hep in Hep'. injection Hep' as <-. cbv zeta.
  destruct (post _ _) as [e|r]; [reflexivity|].
  destruct (negb _); [reflexivity|]. destruct (json_loads _); reflexivity.
Qed.

(** C3, amended: on an endpoint frame whose data is
    [/msg?sessionId=abc123] the two clients keep different things.
    [MCPClient] stores [session_id = 'abc123'] and the whole data as
    [message_endpoint], becomes connected, and posts its next request to
    [server_url + '/msg?sessionId=abc123'].  test-sse.py stores only
    [SESSION_ID = 'abc123']: it keeps no submit path, and its next
    request goes to [SERVER_URL + '/message?sessionId=abc123'], not to
    the path of the frame.  In both the event is set and no later line
    clears it, so from then on a wait on it returns [True] at once. *)
Theorem C3_endpoint_frame_resolves_session
    (line : string) (later : list string) (timeout : Z)
    (now : Z) (post : poster) (method : string) (params : option pyobj)
    (l : TestMcpClient.locals) (w : TestMcpClient.world)
    (l' : TestSse.locals) (w' : TestSse.world) :
  is_data_line line = true ->
  payload line = "/msg?sessionId=abc123" ->
  mcp_awaiting_endpoint l = true ->
  sse_awaiting_endpoint l' = true ->
  let st1 := TestMcpClient.process_line json_loads line (l, w) in
  let rd1 := TestSse.read_line line (l', w') in
  let body := make_request (PyStr.str now) method (params_or_empty params) in
  (TestMcpClient.session_id (snd st1) = Some "abc123"
   /\ TestMcpClient.message_endpoint (snd st1) = Some "/msg?sessionId=abc123"
   /\ TestMcpClient.connected (snd st1) = true
   /\ event_wait (TestMcpClient.endpoint_received
                    (snd (TestMcpClient.process_lines json_loads later st1))) timeout
      = WaitReturns true
   /\ TestMcpClient.posts
        (snd (TestMcpClient.send_request json_loads now post method params (snd st1)))
      = TestMcpClient.posts w
        ++ [(TestMcpClient.server_url w +:+ "/msg?sessionId=abc123", body)])
  /\ (TestSse.SESSION_ID (snd rd1) = Some "abc123"
      /\ event_wait (TestSse.endpoint_event_received
                       (snd (TestSse.read_lines later rd1))) timeout
         = WaitReturns true
      /\ TestSse.posts
           (snd (TestSse.send_request json_loads now post method params
                   (TestSse.SESSION_ID (snd rd1)) (snd rd1)))
         = TestSse.posts w'
           ++ [(TestSse.SERVER_URL +:+ "/message?sessionId=abc123", body)]).
Proof.
  intros Hd Hp Ha Ha' st1 rd1 body. subst st1 rd1 body.
  rewrite (process_line_endpoint_data _ _ _ _ Hd Ha).
  rewrite (read_line_endpoint_data _ _ _ Hd Ha').
  rewrite Hp. cbv zeta.
  change (PyStr.contains session_sep "/msg?sessionId=abc123") with true.
  change (session_of "/msg?sessionId=abc123") with "abc123".
  cbv iota. split; [split; [|split; [|split; [|split]]]|split; [|split]].
  - reflexivity.
  - reflexivity.
  - reflexivity.
  - now rewrite process_lines_endpoint_received.
  - cbn [snd].
    rewrite (mcp_send_request_posts _ _ _ _ _ "/msg?sessionId=abc123");
      reflexivity.
  - reflexivity.
  - now rewrite read_lines_event_flag.
  - cbn [snd TestSse.SESSION_ID TestSse.set_endpoint_event_received TestSse.print
         TestSse.set_SESSION_ID].
    rewrite sse_send_request_posts. reflexivity.
Qed.


End PerClient.

(** C3, as stated, fails on test-sse.py: after the frame
    [data: /msg?sessionId=abc123] its state holds the session id and
    nothing of the path, and the request that follows is posted to
    [/message?sessionId=abc123], which is not the data of the frame. *)
Lemma C3_test_sse_keeps_no_submit_path :
  let post : poster := fun _ _ => HttpReturns {| status_code := 200; text := "{}" |} in
  let s := TestSse.read_sse ["event: endpoint"; "data: /msg?sessionId=abc123"]
             TestSse.world0 in
  let sent := TestSse.posts
                (snd (TestSse.send_request json_loads_lit 1730000000 post
                        "get-methods" None (TestSse.SESSION_ID s) s)) in
  TestSse.SESSION_ID s = Some "abc123"
  /\ TestSse.endpoint_event_received s = true
  /\ fst <$> sent = ["http://localhost:3003/message?sessionId=abc123"]
  /\ fst <$> sent <> [TestSse.SERVER_URL +:+ "/msg?sessionId=abc123"].
Proof.
  cbv zeta. split; [reflexivity|]. split; [reflexivity|]. split; [reflexivity|].
  intros H. vm_compute in H. discriminate H.
Qed.

(** C3 on the wire: the lines [event: endpoint] and
    [data: /msg?sessionId=abc123], followed by a second endpoint frame,
    and then a request. *)
Lemma C3_endpoint_frame_witness :
  let post : poster := fun _ _ => HttpReturns {| status_code := 200; text := "{}" |} in
  let l := fst (TestMcpClient.process_line json_loads_lit "event: endpoint"
                  (TestMcpClient.locals0, TestMcpClient.__init__ "http://localhost:3005")) in
  let l' := fst (TestSse.read_line "event: endpoint" (TestSse.locals0, TestSse.world0)) in
  let st1 := TestMcpClient.process_line json_loads_lit "data: /msg?sessionId=abc123"
               (l, TestMcpClient.__init__ "http://localhost:3005") in
  let rd1 := TestSse.read_line "data: /msg?sessionId=abc123" (l', TestSse.world0) in
  (is_data_line "data: /msg?sessionId=abc123" = true
   /\ payload "data: /msg?sessionId=abc123" = "/msg?sessionId=abc123"
   /\ mcp_awaiting_endpoint l = true
   /\ sse_awaiting_endpoint l' = true)
  /\ TestMcpClient.session_id (snd st1) = Some "abc123"
  /\ event_wait (TestMcpClient.endpoint_received
                   (snd (TestMcpClient.process_lines json_loads_lit
                           ["event: endpoint"; "data: /other"] st1))) 5
     = WaitReturns true
  /\ TestMcpClient.posts
       (snd (TestMcpClient.send_request json_loads_lit 1730000000 post
               "get-methods" None (snd st1)))
     = [("http://localhost:3005/msg?sessionId=abc123",
         make_request "1730000000" "get-methods" (PyDict []))]
  /\ TestSse.posts
       (snd (TestSse.send_request json_loads_lit 1730000000 post
               "get-methods" None (TestSse.SESSION_ID (snd rd1)) (snd rd1)))
     = [("http://localhost:3003/message?sessionId=abc123",
         make_request "1730000000" "get-methods" (PyDict []))].
Proof.
  intros post l l' st1 rd1.
  pose proof (C3_endpoint_frame_resolves_session json_loads_lit
                "data: /msg?sessionId=abc123" ["event: endpoint"; "data: /other"] 5
                1730000000 post "get-methods" None
                l (TestMcpClient.__init__ "http://localhost:3005") l' TestSse.world0
                eq_refl eq_refl eq_refl eq_refl) as H.
  cbv zeta in H. destruct H as ((Hs & _ & _ & Hw & Hp) & (_ & _ & Hp')).
  split; [repeat split|].
  split; [exact Hs|]. split; [exact Hw|]. split; [exact Hp|exact Hp'].
Defined.


